(** * roll_mom: the momentum engine, embedded and verified

    A shallow embedding of [momentum_engine.py]: the cleaning pass
    [clean_and_save_prices], the trading calendar
    ([get_trading_dates_ordered], [build_date_to_index]) and the ranking
    [compute_top5_momentum_for_date].

    Conventions of the embedding:
    - a Python [str] is a [string]; the text handled is ASCII, so [strip],
      [lower] and the ordering of strings are the ASCII ones;
    - a Python [int] is a [Z];
    - a Python [float] is a binary64 value of [spec_float], with the IEEE
      comparisons and the correctly rounded operations of [SpecFloat];
    - a [dict] is a [gmap] where only lookups, sizes and sorted keys are
      observed, and an association list in insertion order where the code
      iterates over it;
    - the file system is the pair of the two files the engine touches. *)

From Stdlib Require Import ZArith Ascii String List Bool Lia.
From Stdlib Require Import Floats.SpecFloat.
From Stdlib Require Import Sorting.Sorted Sorting.Permutation.
From Stdlib Require Import Structures.OrderedTypeEx.
From stdpp Require Import base option list gmap strings fin_maps sorting pretty.

Local Open Scope Z_scope.

(** ** Strings *)

Module PyStr.

(** [str.isspace] on ASCII: tab, line feed, vertical tab, form feed,
    carriage return, the four separators 0x1c-0x1f and the space. *)
Definition is_space (c : ascii) : bool :=
  let n := nat_of_ascii c in
  ((9 <=? n)%nat && (n <=? 13)%nat) || ((28 <=? n)%nat && (n <=? 32)%nat).

Fixpoint lstrip (s : string) : string :=
  match s with
  | EmptyString => EmptyString
  | String c s' => if is_space c then lstrip s' else s
  end.

(** [rstrip] keeps a character when it is not a space or when something
    survives to its right. *)
Fixpoint rstrip (s : string) : string :=
  match s with
  | EmptyString => EmptyString
  | String c s' =>
      match rstrip s' with
      | EmptyString => if is_space c then EmptyString else String c EmptyString
      | r => String c r
      end
  end.

(** [s.strip()] *)
Definition strip (s : string) : string := rstrip (lstrip s).

Definition lower_char (c : ascii) : ascii :=
  let n := nat_of_ascii c in
  if ((65 <=? n)%nat && (n <=? 90)%nat) then ascii_of_nat (n + 32) else c.

(** [s.lower()] *)
Fixpoint lower (s : string) : string :=
  match s with
  | EmptyString => EmptyString
  | String c s' => String (lower_char c) (lower s')
  end.

(** [s.split(",")]: the fields between the commas; never empty. *)
Fixpoint split_comma (s : string) : list string :=
  match s with
  | EmptyString => [EmptyString]
  | String c s' =>
      if Ascii.eqb c ","%char then EmptyString :: split_comma s'
      else match split_comma s' with
           | f :: fs => String c f :: fs
           | [] => [String c EmptyString]
           end
  end.

(** [s[:n]] *)
Fixpoint prefix (n : nat) (s : string) : string :=
  match n, s with
  | O, _ => EmptyString
  | _, EmptyString => EmptyString
  | S n', String c s' => String c (prefix n' s')
  end.

(** [a < b] on [str]: lexicographic on the characters. *)
Definition ltb (a b : string) : bool := String.ltb a b.

End PyStr.

(** ** Floats *)

Module PyFloat.

Definition float := spec_float.

Definition prec : Z := 53.
Definition emax : Z := 1024.

Definition nan : float := S754_nan.
Definition zero : float := S754_zero false.
(** [1.0] *)
Definition one : float := S754_finite false 4503599627370496 (-52).

Definition eqb (x y : float) : bool := SFeqb x y.
Definition ltb (x y : float) : bool := SFltb x y.
Definition leb (x y : float) : bool := SFleb x y.
Definition neg (x : float) : float := SFopp x.
Definition div (x y : float) : float := SFdiv prec emax x y.
Definition sub (x y : float) : float := SFsub prec emax x y.

Definition is_nan (x : float) : bool :=
  match x with S754_nan => true | _ => false end.

#[global] Instance float_eq_dec : EqDecision spec_float.
Proof. solve_decision. Defined.

#[global] Instance float_inhabited : Inhabited spec_float := populate S754_nan.

(** *** The builtin [float(str)]

    The grammar of the language reference, on ASCII text:
    optional sign, then [inf], [infinity] or [nan] in any case, or a
    decimal number with optional fraction and exponent, where single
    underscores may separate digits.  [None] stands for [ValueError]. *)

Definition digit (c : ascii) : option Z :=
  let n := nat_of_ascii c in
  if ((48 <=? n)%nat && (n <=? 57)%nat) then Some (Z.of_nat (n - 48)) else None.

Fixpoint digitpart (l : list ascii) : list Z * list ascii :=
  match l with
  | [] => ([], [])
  | c :: l' =>
      match digit c with
      | None => ([], l)
      | Some d =>
          match l' with
          | u :: ((c2 :: _) as l'') =>
              if Ascii.eqb u "_"%char && bool_decide (is_Some (digit c2))
              then let '(ds, r) := digitpart l'' in (d :: ds, r)
              else let '(ds, r) := digitpart l' in (d :: ds, r)
          | _ => let '(ds, r) := digitpart l' in (d :: ds, r)
          end
      end
  end.

Definition digits_value (ds : list Z) : Z :=
  fold_left (fun acc d => 10 * acc + d) ds 0.

Definition sign (l : list ascii) : bool * list ascii :=
  match l with
  | c :: l' =>
      if Ascii.eqb c "-"%char then (true, l')
      else if Ascii.eqb c "+"%char then (false, l')
      else (false, l)
  | [] => (false, [])
  end.

(** The exponent part: [e] or [E], optional sign, digits. *)
Definition exponent (l : list ascii) : option (Z * list ascii) :=
  match l with
  | c :: l' =>
      if Ascii.eqb (PyStr.lower_char c) "e"%char then
        let '(s, l1) := sign l' in
        match digitpart l1 with
        | ([], _) => None
        | (ds, r) => Some (if s then - digits_value ds else digits_value ds, r)
        end
      else Some (0, l)
  | [] => Some (0, [])
  end.

(** The binary64 nearest to [m * 10 ^ e], ties to even. *)
Definition of_decimal (s : bool) (m e : Z) : float :=
  match m * 10 ^ Z.max e 0, 10 ^ Z.max (- e) 0 with
  | Zpos n, Zpos d => div (S754_finite s n 0) (S754_finite false d 0)
  | _, _ => S754_zero s
  end.

Definition number (s : bool) (l : list ascii) : option float :=
  let '(ip, r1) := digitpart l in
  let '(fp, r2) :=
    match r1 with
    | c :: r => if Ascii.eqb c "."%char then digitpart r else ([], r1)
    | [] => ([], [])
    end in
  match ip ++ fp with
  | [] => None
  | ds =>
      match exponent r2 with
      | Some (e, []) =>
          Some (of_decimal s (digits_value ds) (e - Z.of_nat (length fp)))
      | _ => None
      end
  end.

Definition of_string (str : string) : option float :=
  let '(s, l) := sign (list_ascii_of_string (PyStr.strip str)) in
  let w := PyStr.lower (string_of_list_ascii l) in
  if bool_decide (w = "inf") || bool_decide (w = "infinity")
  then Some (S754_infinity s)
  else if bool_decide (w = "nan") then Some S754_nan
  else number s l.

End PyFloat.

(** ** Lists *)

Module PyList.

Section Sort.
Context {A : Type} (lt : A → A → bool).

(** One insertion of [list.sort]: [x] moves left over the elements
    it is smaller than, starting from the end of the sorted prefix.
    The prefix is kept reversed, its last element first. *)
Fixpoint insert_back (x : A) (rprefix : list A) : list A :=
  match rprefix with
  | [] => [x]
  | y :: r => if lt x y then y :: insert_back x r else x :: rprefix
  end.

(** [list.sort] and [sorted]: a stable sort that compares with [<]
    only, here the insertion sort CPython runs on short lists.  On
    keys that [<] orders totally every stable sort returns the same
    list; a list without adjacent inversion is one ascending run and
    comes back unchanged. *)
Definition sort (l : list A) : list A :=
  rev (fold_left (fun racc x => insert_back x racc) l []).
End Sort.

(** [l[i]] for an [int] index: negative indices count from the end,
    [None] stands for [IndexError]. *)
Definition index {A : Type} (l : list A) (i : Z) : option A :=
  let i' := if i <? 0 then i + Z.of_nat (length l) else i in
  if i' <? 0 then None else l !! Z.to_nat i'.

(** [len(l)] *)
Definition len {A : Type} (l : list A) : Z := Z.of_nat (length l).

End PyList.

(** ** The cleaning pass *)

Abbreviation float := PyFloat.float.

(** A [(date, ticker)] tuple. *)
Abbreviation key := (string * string)%type.

(** [a < b] on tuples of two strings: the first differing component
    decides. *)
Definition key_ltb (a b : key) : bool :=
  if bool_decide (a.1 = b.1) then PyStr.ltb a.2 b.2 else PyStr.ltb a.1 b.1.

(** The audit log.  Each constructor is one of the f-strings of
    [clean_and_save_prices] and carries the values interpolated in it:
    - [Skipped s]: "Skipped malformed line (expected 3 columns): {s!r}"
    - [ReadRows n f]: "Read {n} data rows from {f}."
    - [Removed n]: "Removed {n} rows with missing or invalid close_price."
    - [Resolved p d]: "Resolved {p} duplicate (date, ticker) pairs by
      keeping last value ({d} duplicate rows dropped)."
    - [Written n f]: "Written {n} rows to {f}." *)
Inductive log_entry :=
| Skipped (shown : string)
| ReadRows (n : Z) (file_name : string)
| Removed (n : Z)
| Resolved (pairs dropped : Z)
| Written (n : Z) (file_name : string).

#[global] Instance log_entry_eq_dec : EqDecision log_entry.
Proof. solve_decision. Defined.

(** The locals of the loop of [clean_and_save_prices]. *)
Record clean_state := CleanState {
  log : list log_entry;
  rows_read : Z;
  empty_or_invalid_price : Z;
  duplicate_keys : gmap key Z;
  last_seen : gmap key float
}.

Definition clean_init : clean_state :=
  {| log := []; rows_read := 0; empty_or_invalid_price := 0;
     duplicate_keys := ∅; last_seen := ∅ |}.

(** The body of the loop, for one line of the file. *)
Definition clean_line (st : clean_state) (line0 : string) : clean_state :=
  let line := PyStr.strip line0 in
  if bool_decide (line = "") then st
  else
    match PyStr.split_comma line with
    | p0 :: p1 :: p2 :: _ =>
        let date_str := PyStr.strip p0 in
        let ticker := PyStr.strip p1 in
        let price_str := PyStr.strip p2 in
        if bool_decide (PyStr.lower date_str = "date")
           && bool_decide (PyStr.lower ticker = "ticker")
        then st
        else
          let rows_read' := rows_read st + 1 in
          match PyFloat.of_string price_str with
          | None =>
              {| log := log st; rows_read := rows_read';
                 empty_or_invalid_price := empty_or_invalid_price st + 1;
                 duplicate_keys := duplicate_keys st;
                 last_seen := last_seen st |}
          | Some price =>
              if PyFloat.leb price PyFloat.zero then
                {| log := log st; rows_read := rows_read';
                   empty_or_invalid_price := empty_or_invalid_price st + 1;
                   duplicate_keys := duplicate_keys st;
                   last_seen := last_seen st |}
              else
                let k : key := (date_str, ticker) in
                {| log := log st; rows_read := rows_read';
                   empty_or_invalid_price := empty_or_invalid_price st;
                   duplicate_keys :=
                     match last_seen st !! k with
                     | Some _ =>
                         <[k := default 1 (duplicate_keys st !! k) + 1]>
                           (duplicate_keys st)
                     | None => duplicate_keys st
                     end;
                   last_seen := <[k := price]> (last_seen st) |}
          end
    | _ =>
        {| log := log st ++ [Skipped (PyStr.prefix 80 line)];
           rows_read := rows_read st;
           empty_or_invalid_price := empty_or_invalid_price st + 1;
           duplicate_keys := duplicate_keys st;
           last_seen := last_seen st |}
    end.

(** The whole loop over the lines of the raw file. *)
Definition clean_lines (lines : list string) : clean_state :=
  fold_left clean_line lines clean_init.

(** [len(duplicate_keys)] *)
Definition num_duplicate_pairs (st : clean_state) : Z :=
  Z.of_nat (size (duplicate_keys st)).

(** [sum(duplicate_keys.values())] *)
Definition total_duplicate_occurrences (st : clean_state) : Z :=
  map_fold (fun _ v acc => v + acc) 0 (duplicate_keys st).

Definition duplicate_rows_dropped (st : clean_state) : Z :=
  total_duplicate_occurrences st - num_duplicate_pairs st.

(** The rows handed to the csv writer after the header:
    [for (date_str, ticker) in sorted(last_seen.keys())]. *)
Definition canonical_table (st : clean_state) : list (string * string * float) :=
  map (fun k : key => (k.1, k.2, last_seen st !!! k))
      (PyList.sort key_ltb (map_to_list (last_seen st)).*1).

(** [len(last_seen)] *)
Definition rows_written (st : clean_state) : Z :=
  Z.of_nat (size (last_seen st)).

(** The log lines appended after the loop. *)
Definition final_log (raw_name clean_name : string) (st : clean_state)
  : list log_entry :=
  log st
  ++ [ReadRows (rows_read st) raw_name]
  ++ (if bool_decide (empty_or_invalid_price st ≠ 0)
      then [Removed (empty_or_invalid_price st)] else [])
  ++ (if bool_decide (duplicate_rows_dropped st ≠ 0)
      then [Resolved (num_duplicate_pairs st) (duplicate_rows_dropped st)]
      else [])
  ++ [Written (rows_written st) clean_name].

(** *** Files *)

(** The two files the engine touches.  [PRICES_RAW] is absent or holds
    the lines that iterating over it yields; [PRICES_CLEAN] is absent or
    holds the rows given to the csv writer, header first. *)
Record files := Files {
  raw_file : option (list string);
  clean_file : option (list string * list (string * string * float))
}.

Inductive exn :=
| FileNotFoundError (msg : string)
| IndexError.

Section Engine.
(** [Path(__file__).resolve().parent] *)
Variable BASE : string.

Definition raw_name : string := "stock_prices_1.csv".
Definition clean_name : string := "stock_prices_2.csv".
Definition PRICES_RAW : string := BASE +:+ "/" +:+ raw_name.
Definition PRICES_CLEAN : string := BASE +:+ "/" +:+ clean_name.

(** [clean_and_save_prices()]: what it returns or raises, and the
    files it leaves. *)
Definition clean_and_save_prices (fs : files)
  : (exn + (Z * list log_entry)) * files :=
  match raw_file fs with
  | None =>
      (inl (FileNotFoundError ("Input file not found: " +:+ PRICES_RAW)), fs)
  | Some lines =>
      let st := clean_lines lines in
      let fs' :=
        {| raw_file := raw_file fs;
           clean_file :=
             Some (["date"; "ticker"; "close_price"], canonical_table st) |} in
      (inr (rows_written st, final_log raw_name clean_name st), fs')
  end.
End Engine.

(** ** The trading calendar *)

(** A row of the clean table: [(date, ticker, price)]. *)
Abbreviation row := (string * string * float)%type.

(** One turn of the loop of [get_trading_dates_ordered] on the locals
    [(seen, out)]. *)
Definition dates_step (acc : gset string * list string) (r : row)
  : gset string * list string :=
  let d := r.1.1 in
  if bool_decide (d ∈ acc.1) then acc else ({[d]} ∪ acc.1, acc.2 ++ [d]).

Definition get_trading_dates_ordered (rows : list row) : list string :=
  (fold_left dates_step rows (∅, [])).2.

(** [enumerate(l)] *)
Definition enumerate {A : Type} (l : list A) : list (Z * A) :=
  imap (fun i x => (Z.of_nat i, x)) l.

(** [{d: i for i, d in enumerate(dates)}] *)
Definition build_date_to_index (dates : list string) : gmap string Z :=
  fold_left (fun m (p : Z * string) => <[p.2 := p.1]> m) (enumerate dates) ∅.

(** ** The ranking *)

(** [by_ticker[ticker][d] = price] on a [defaultdict(dict)], kept in
    insertion order of its keys. *)
Fixpoint by_ticker_set (bt : list (string * gmap string float))
    (ticker d : string) (price : float) : list (string * gmap string float) :=
  match bt with
  | [] => [(ticker, {[d := price]})]
  | (t, m) :: bt' =>
      if bool_decide (t = ticker) then (t, <[d := price]> m) :: bt'
      else (t, m) :: by_ticker_set bt' ticker d price
  end.

(** The grouping pass over all rows. *)
Definition group_by_ticker (rows : list row) : list (string * gmap string float) :=
  fold_left (fun bt (r : row) => by_ticker_set bt r.1.2 r.1.1 r.2) rows [].

(** [(p_today / p_20) - 1] *)
Definition momentum (p_today p_20 : float) : float :=
  PyFloat.sub (PyFloat.div p_today p_20) PyFloat.one.

(** One turn of the loop over [by_ticker.items()]. *)
Definition momentum_step (target_date date_20_ago : string)
    (momentums : list (string * float)) (item : string * gmap string float)
  : list (string * float) :=
  match item.2 !! target_date, item.2 !! date_20_ago with
  | Some p_today, Some p_20 =>
      if PyFloat.leb p_20 PyFloat.zero then momentums
      else momentums ++ [(item.1, momentum p_today p_20)]
  | _, _ => momentums
  end.

(** The candidates, before they are sorted. *)
Definition candidates (rows : list row) (target_date date_20_ago : string)
  : list (string * float) :=
  fold_left (momentum_step target_date date_20_ago) (group_by_ticker rows) [].

(** [a < b] on the sort keys [(-x[1], x[0])]. *)
Definition rank_ltb (x y : string * float) : bool :=
  if PyFloat.eqb (PyFloat.neg x.2) (PyFloat.neg y.2)
  then PyStr.ltb x.1 y.1
  else PyFloat.ltb (PyFloat.neg x.2) (PyFloat.neg y.2).

(** [compute_top5_momentum_for_date(rows, target_date, dates,
    date_to_index, window)]: [inr None] is the return of [None],
    [inr (Some l)] the return of the list [l], [inl e] the exception
    [e]. *)
Definition compute_top5_momentum_for_date (rows : list row)
    (target_date : string) (dates : list string)
    (date_to_index : gmap string Z) (window : Z)
  : exn + option (list (string * float)) :=
  match date_to_index !! target_date with
  | None => inr None
  | Some idx =>
      if idx <? window then inr (Some [])
      else
        match PyList.index dates (idx - window) with
        | None => inl IndexError
        | Some date_20_ago =>
            let momentums := candidates rows target_date date_20_ago in
            inr (Some (take 5 (PyList.sort rank_ltb momentums)))
        end
  end.

(** ** Loading the clean file *)

(** A row as [csv.DictReader] yields it: each column of the header
    with the text of its field, or with [None] when the line is too
    short to have it. *)
Abbreviation record := (gmap string (option string)).

(** A loaded row [(rec["date"], rec["ticker"], price)]; the ticker is
    [None] on a short line. *)
Abbreviation loaded_row := (string * option string * float)%type.







(** ** The fixtures of the tests *)

(** [make_rows(dates, tickers_with_prices)] of [test_momentum.py]: the
    rows of every ticker, sorted with the key [(x[0], x[1])]. *)
Definition make_rows (dates : list string)
    (tickers_with_prices : list (string * list (string * float))) : list row :=
  PyList.sort (fun a b : row => key_ltb a.1 b.1)
    (tickers_with_prices ≫= fun tp =>
       (fun dp : string * float => (dp.1, tp.1, dp.2)) <$> tp.2).

(** ** The command line *)

(** The part of [main] of [cli.py] that follows the loading of the
    rows.  It is run on the lines that the calls of [input] return, and
    gives the trace of its effects, the cache [results] it ends with,
    and the way it ends.  A value of the cache is kept abstract: it is
    what [json.load] gave for a date, or what [to_store] is for a
    ranking. *)
Inductive cli_exn :=
| EOFError
| Propagated (e : exn).

Inductive ending :=
| Returned
| Raised (e : cli_exn).

Section Cli.
(** The values of the cache. *)
Variable V : Type.
(** [[{"ticker": t, "momentum": round(m, 6)} for t, m in top5]] *)
Variable to_store : list (string * float) → V.

(** The effects of [main], each standing for the [print] calls or the
    call of [save_results] of one branch:
    - [NoCleanData]: "No clean data to work with."
    - [Banner]: the two lines that explain what to type
    - [Goodbye]: "Goodbye."
    - [FromCache d v]: "Result for {d} (from cache):" and the lines of [v]
    - [NoData d]: "No data for date {d}. ..."
    - [Insufficient d]: "Insufficient history for {d}. ..."
    - [Saved r]: [save_results(r)]
    - [Computed d top5]: "Result for {d} (computed and saved):", the
      lines of [top5] and, under 5 entries, the line "(Only ...)"
    - [Blank]: the [print()] that ends a turn of the loop. *)
Inductive event :=
| NoCleanData
| Banner
| Goodbye
| FromCache (date : string) (cached : V)
| NoData (date : string)
| Insufficient (date : string)
| Saved (results : gmap string V)
| Computed (date : string) (top5 : list (string * float))
| Blank.

(** [date_input.lower() in ("quit", "exit", "q")] *)
Definition is_quit (date_input : string) : bool :=
  bool_decide (PyStr.lower date_input ∈ ["quit"; "exit"; "q"]).

(** The [while True] loop, on the lines still to be typed. *)
Fixpoint query_loop (rows : list row) (dates : list string)
    (date_to_index : gmap string Z) (results : gmap string V)
    (inputs : list string) : list event * gmap string V * ending :=
  match inputs with
  | [] => ([], results, Raised EOFError)
  | line :: rest =>
      let date_input := PyStr.strip line in
      if bool_decide (date_input = "") then
        query_loop rows dates date_to_index results rest
      else if is_quit date_input then ([Goodbye], results, Returned)
      else
        match results !! date_input with
        | Some cached =>
            let '(tr, r, e) := query_loop rows dates date_to_index results rest in
            (FromCache date_input cached :: Blank :: tr, r, e)
        | None =>
            match compute_top5_momentum_for_date rows date_input dates
                    date_to_index 20 with
            | inl e => ([], results, Raised (Propagated e))
            | inr None =>
                let '(tr, r, e) :=
                  query_loop rows dates date_to_index results rest in
                (NoData date_input :: Blank :: tr, r, e)
            | inr (Some []) =>
                let '(tr, r, e) :=
                  query_loop rows dates date_to_index results rest in
                (Insufficient date_input :: Blank :: tr, r, e)
            | inr (Some top5) =>
                let results' := <[date_input := to_store top5]> results in
                let '(tr, r, e) :=
                  query_loop rows dates date_to_index results' rest in
                (Saved results' :: Computed date_input top5 :: Blank :: tr, r, e)
            end
        end
  end.

(** [main] from [rows = load_clean_prices()] on, for rows that all
    have their ticker, with [results] the dict that [load_results()]
    returned. *)
Definition main_queries (rows : list row) (results : gmap string V)
    (inputs : list string) : list event * gmap string V * ending :=
  match rows with
  | [] => ([NoCleanData], results, Returned)
  | _ =>
      let dates := get_trading_dates_ordered rows in
      let date_to_index := build_date_to_index dates in
      let '(tr, r, e) := query_loop rows dates date_to_index results inputs in
      (Banner :: tr, r, e)
  end.

End Cli.

Arguments NoCleanData {V}.
Arguments Banner {V}.
Arguments Goodbye {V}.
Arguments FromCache {V} date cached.
Arguments NoData {V} date.
Arguments Insufficient {V} date.
Arguments Saved {V} results.
Arguments Computed {V} date top5.
Arguments Blank {V}.
Arguments query_loop {V} to_store rows dates date_to_index results inputs.
Arguments main_queries {V} to_store rows results inputs.

(** * The vocabulary of the statements *)

(** ** The kinds of lines

    Read off the fields of a line the way the loop computes them. *)

(** The line is empty once stripped. *)
Definition is_blank (line : string) : bool :=
  bool_decide (PyStr.strip line = "").

(** [len(parts)] *)
Definition num_fields (line : string) : nat :=
  length (PyStr.split_comma (PyStr.strip line)).

(** The first two stripped fields are "date" and "ticker" in any case,
    however many fields follow. *)
Definition looks_like_header (line : string) : bool :=
  match PyStr.split_comma (PyStr.strip line) with
  | p0 :: p1 :: _ =>
      bool_decide (PyStr.lower (PyStr.strip p0) = "date")
      && bool_decide (PyStr.lower (PyStr.strip p1) = "ticker")
  | _ => false
  end.

(** A non-blank line with fewer than 3 fields. *)
Definition is_malformed (line : string) : bool :=
  negb (is_blank line) && (num_fields line <? 3)%nat.

(** A non-blank line with at least 3 fields that is not a header. *)
Definition is_data_row (line : string) : bool :=
  negb (is_blank line) && (3 <=? num_fields line)%nat
  && negb (looks_like_header line).

(** [(date_str, ticker)] of a line with at least 2 fields. *)
Definition line_key (line : string) : option key :=
  match PyStr.split_comma (PyStr.strip line) with
  | p0 :: p1 :: _ => Some (PyStr.strip p0, PyStr.strip p1)
  | _ => None
  end.

(** [float(price_str)] of a line with at least 3 fields. *)
Definition line_price (line : string) : option float :=
  match PyStr.split_comma (PyStr.strip line) with
  | _ :: _ :: p2 :: _ => PyFloat.of_string (PyStr.strip p2)
  | _ => None
  end.

(** The price of the line parses and passes the test [price <= 0]. *)
Definition price_accepted (line : string) : bool :=
  match line_price line with
  | Some price => negb (PyFloat.leb price PyFloat.zero)
  | None => false
  end.

(** A data row whose price is missing, not a number, or [<= 0]. *)
Definition is_price_failure (line : string) : bool :=
  is_data_row line && negb (price_accepted line).

(** A data row that reaches [last_seen]. *)
Definition is_kept (line : string) : bool :=
  is_data_row line && price_accepted line.

(** [x > 0] on floats. *)
Definition strictly_positive (x : float) : Prop :=
  PyFloat.ltb PyFloat.zero x = true.

(** The number of lines that satisfy [f]. *)
Definition count (f : string → bool) (lines : list string) : Z :=
  Z.of_nat (length (filter (fun l => f l = true) lines)).

Definition b2z (b : bool) : Z := if b then 1 else 0.

(** The [Skipped] entries of the malformed lines, in reading order. *)
Definition skipped_entries (lines : list string) : list log_entry :=
  map (fun l => Skipped (PyStr.prefix 80 (PyStr.strip l)))
      (filter (fun l => is_malformed l = true) lines).

(** A line that is neither blank nor a header, whatever its number of
    fields. *)
Definition is_nonblank_nonheader (line : string) : bool :=
  negb (is_blank line) && negb (looks_like_header line).

(** A blank line, or a header line with its 3 columns. *)
Definition is_inert (line : string) : bool :=
  is_blank line || (looks_like_header line && (3 <=? num_fields line)%nat).

(** ** Rows, prices and ranks *)

(** The index of the first row with date [d]. *)
Definition first_seen_at (rows : list row) (d : string) : option nat :=
  fst <$> list_find (fun r : row => r.1.1 = d) rows.

(** The float that the literal [s] denotes. *)
Definition flt (s : string) : float := default PyFloat.nan (PyFloat.of_string s).

(** A float that is not NaN, as a point of [Z * Z * Z] ordered
    lexicographically: the class (infinities, signs, zero), then the
    exponent and the mantissa, negated for negative numbers. *)
Definition fkey (x : float) : Z * Z * Z :=
  match x with
  | S754_nan => (0, 0, 0)
  | S754_zero _ => (0, 0, 0)
  | S754_infinity true => (-2, 0, 0)
  | S754_infinity false => (2, 0, 0)
  | S754_finite false m e => (1, e, Zpos m)
  | S754_finite true m e => (-1, - e, Zneg m)
  end.

(** The lexicographic order of [Z * Z * Z]. *)
Definition lt3 (a b : Z * Z * Z) : Prop :=
  a.1.1 < b.1.1
  ∨ (a.1.1 = b.1.1 ∧ (a.1.2 < b.1.2 ∨ (a.1.2 = b.1.2 ∧ a.2 < b.2))).

(** [x] ranks before [y]: its momentum is greater, or the momentums
    are equal and its ticker is smaller. *)
Definition ranks_before (x y : string * float) : Prop :=
  PyFloat.ltb y.2 x.2 = true
  ∨ (PyFloat.eqb x.2 y.2 = true ∧ PyStr.ltb x.1 y.1 = true).

(** A float that is zero or a finite number. *)
Definition is_finite (x : float) : bool :=
  match x with
  | S754_zero _ | S754_finite _ _ _ => true
  | _ => false
  end.

(** The momentum of the entry is a number. *)
Definition not_nan (x : string * float) : Prop := PyFloat.is_nan x.2 = false.

(** The price of [ticker] on the date [d]: the one of the last row
    with that ticker and date. *)
Definition price_on (rows : list row) (ticker d : string) : option float :=
  fold_left
    (fun acc (r : row) =>
       if bool_decide (r.1.2 = ticker ∧ r.1.1 = d) then Some r.2 else acc)
    rows None.

(** What one item of [by_ticker] adds to [momentums]. *)
Definition candidate_of (target_date date_20_ago : string)
    (item : string * gmap string float) : option (string * float) :=
  match item.2 !! target_date, item.2 !! date_20_ago with
  | Some p_today, Some p_20 =>
      if PyFloat.leb p_20 PyFloat.zero then None
      else Some (item.1, momentum p_today p_20)
  | _, _ => None
  end.

(** No candidate of the query has a momentum that is NaN. *)
Definition no_nan_momentum (rows : list row) (target_date : string)
    (dates : list string) (date_to_index : gmap string Z) (window : Z) : Prop :=
  ∀ idx date_20_ago,
    date_to_index !! target_date = Some idx → window <= idx →
    PyList.index dates (idx - window) = Some date_20_ago →
    Forall not_nan (candidates rows target_date date_20_ago).

(** A table of 21 dates, "0" to "20", with the ticker AAA at the
    price 100.0 on each. *)
Definition sample_rows : list row :=
  (fun i : nat => (pretty i, "AAA", flt "100.0")) <$> seq 0 21.

(** ** Lines kept for a key *)

(** A line that reaches [last_seen] with the key [k]. *)
Definition kept_with_key (k : key) (line : string) : bool :=
  is_kept line && bool_decide (line_key line = Some k).

(** The price of the last line kept for the key [k]. *)
Definition kept_price (lines : list string) (k : key) : option float :=
  fold_left
    (fun acc line => if kept_with_key k line then line_price line else acc)
    lines None.

(** The number of lines kept for the key [k]. *)
Definition kept_count (lines : list string) (k : key) : Z :=
  count (kept_with_key k) lines.

(** * Properties of the cleaning pass *)

(** ** One line at a time *)

Lemma clean_line_blank st line :
  is_blank line = true → clean_line st line = st.
Proof.
  unfold is_blank, clean_line. intros H. by rewrite H.
Qed.

Lemma clean_line_malformed st line :
  is_malformed line = true →
  clean_line st line =
    {| log := log st ++ [Skipped (PyStr.prefix 80 (PyStr.strip line))];
       rows_read := rows_read st;
       empty_or_invalid_price := empty_or_invalid_price st + 1;
       duplicate_keys := duplicate_keys st;
       last_seen := last_seen st |}.
Proof.
  unfold is_malformed, is_blank, num_fields, clean_line.
  intros [Hb Hn]%andb_prop. apply negb_true_iff in Hb. rewrite Hb.
  apply Nat.ltb_lt in Hn.
  destruct (PyStr.split_comma (PyStr.strip line)) as [|p0 [|p1 [|p2 ps]]];
    simpl in Hn; try lia; reflexivity.
Qed.

Lemma clean_line_header st line :
  looks_like_header line = true → (3 <= num_fields line)%nat →
  clean_line st line = st.
Proof.
  unfold looks_like_header, num_fields, clean_line. intros Hh Hn.
  case_bool_decide as Hb; [done|].
  destruct (PyStr.split_comma (PyStr.strip line)) as [|p0 [|p1 [|p2 ps]]];
    simpl in Hn; try lia.
  by rewrite Hh.
Qed.

Lemma clean_line_price_failure st line :
  is_price_failure line = true →
  clean_line st line =
    {| log := log st;
       rows_read := rows_read st + 1;
       empty_or_invalid_price := empty_or_invalid_price st + 1;
       duplicate_keys := duplicate_keys st;
       last_seen := last_seen st |}.
Proof.
  unfold is_price_failure, is_data_row, price_accepted, line_price,
    is_blank, num_fields, looks_like_header, clean_line.
  intros [[[Hb Hn]%andb_prop Hh]%andb_prop Hp]%andb_prop.
  apply negb_true_iff in Hb, Hh, Hp. rewrite Hb.
  apply Nat.leb_le in Hn.
  destruct (PyStr.split_comma (PyStr.strip line)) as [|p0 [|p1 [|p2 ps]]];
    simpl in Hn; try lia.
  rewrite Hh.
  destruct (PyFloat.of_string (PyStr.strip p2)) as [price|]; [|done].
  apply negb_false_iff in Hp. by rewrite Hp.
Qed.

Lemma clean_line_kept st line :
  is_kept line = true →
  ∃ k price,
    line_key line = Some k ∧ line_price line = Some price ∧
    PyFloat.leb price PyFloat.zero = false ∧
    clean_line st line =
      {| log := log st;
         rows_read := rows_read st + 1;
         empty_or_invalid_price := empty_or_invalid_price st;
         duplicate_keys :=
           match last_seen st !! k with
           | Some _ =>
               <[k := default 1 (duplicate_keys st !! k) + 1]> (duplicate_keys st)
           | None => duplicate_keys st
           end;
         last_seen := <[k := price]> (last_seen st) |}.
Proof.
  unfold is_kept, is_data_row, price_accepted, line_price, line_key,
    is_blank, num_fields, looks_like_header, clean_line.
  intros [[[Hb Hn]%andb_prop Hh]%andb_prop Hp]%andb_prop.
  apply negb_true_iff in Hb, Hh. rewrite Hb.
  apply Nat.leb_le in Hn.
  destruct (PyStr.split_comma (PyStr.strip line)) as [|p0 [|p1 [|p2 ps]]];
    simpl in Hn; try lia.
  rewrite Hh.
  destruct (PyFloat.of_string (PyStr.strip p2)) as [price|]; [|done].
  apply negb_true_iff in Hp. rewrite Hp. eauto 10.
Qed.

(** Every line is of exactly one kind. *)
Lemma line_kinds line :
  (is_blank line = true ∨ is_malformed line = true)
  ∨ (looks_like_header line = true ∧ (3 <= num_fields line)%nat)
  ∨ is_price_failure line = true ∨ is_kept line = true.
Proof.
  unfold is_malformed, is_price_failure, is_kept, is_data_row.
  destruct (is_blank line); [by left; left|].
  destruct (Nat.ltb_spec (num_fields line) 3) as [Hn|Hn]; [by left; right|].
  right. apply Nat.leb_le in Hn as Hn'. rewrite Hn'.
  destruct (looks_like_header line); [left; split; [done|by apply Nat.leb_le]|].
  right. destruct (price_accepted line); [by right|by left].
Qed.

Lemma count_nil f : count f [] = 0.
Proof. reflexivity. Qed.

Lemma count_cons f l ls : count f (l :: ls) = b2z (f l) + count f ls.
Proof.
  unfold count. rewrite filter_cons.
  destruct (f l); simpl; [lia|done].
Qed.

Lemma count_nonneg f ls : 0 <= count f ls.
Proof. unfold count. lia. Qed.

(** What one line does to the two counters and to the log. *)
Lemma clean_line_counters st line :
  rows_read (clean_line st line) = rows_read st + b2z (is_data_row line)
  ∧ empty_or_invalid_price (clean_line st line)
    = empty_or_invalid_price st
      + b2z (is_malformed line) + b2z (is_price_failure line)
  ∧ log (clean_line st line)
    = log st ++ (if is_malformed line
                 then [Skipped (PyStr.prefix 80 (PyStr.strip line))] else []).
Proof.
  destruct (line_kinds line) as [[H|H]|[[H Hn]|[H|H]]].
  - rewrite clean_line_blank by done.
    unfold is_price_failure, is_data_row, is_malformed. rewrite H. simpl.
    rewrite app_nil_r. repeat split; lia.
  - rewrite clean_line_malformed by done.
    unfold is_price_failure, is_data_row. rewrite H.
    unfold is_malformed in H. apply andb_prop in H as [Hb Hlt].
    rewrite Hb. apply Nat.ltb_lt in Hlt.
    destruct (Nat.leb_spec 3 (num_fields line)); [lia|].
    simpl. repeat split; lia.
  - rewrite clean_line_header by done.
    unfold is_price_failure, is_data_row, is_malformed. rewrite H.
    destruct (Nat.ltb_spec (num_fields line) 3); [lia|].
    rewrite !andb_false_r. simpl. rewrite app_nil_r. repeat split; lia.
  - rewrite clean_line_price_failure by done. rewrite H.
    unfold is_price_failure in H. apply andb_prop in H as [Hd _]. rewrite Hd.
    unfold is_data_row in Hd. unfold is_malformed.
    apply andb_prop in Hd as [[Hb Hle]%andb_prop _]. rewrite Hb.
    apply Nat.leb_le in Hle.
    destruct (Nat.ltb_spec (num_fields line) 3); [lia|].
    simpl. rewrite app_nil_r. repeat split; lia.
  - destruct (clean_line_kept st line H) as (k & price & _ & _ & _ & Hcl).
    rewrite Hcl. unfold is_price_failure. unfold is_kept in H.
    apply andb_prop in H as [Hd Hp]. rewrite Hd, Hp.
    unfold is_data_row in Hd. unfold is_malformed.
    apply andb_prop in Hd as [[Hb Hle]%andb_prop _]. rewrite Hb.
    apply Nat.leb_le in Hle.
    destruct (Nat.ltb_spec (num_fields line) 3); [lia|].
    simpl. rewrite app_nil_r. repeat split; lia.
Qed.

Lemma clean_fold_counters lines : ∀ st,
  rows_read (fold_left clean_line lines st)
    = rows_read st + count is_data_row lines
  ∧ empty_or_invalid_price (fold_left clean_line lines st)
    = empty_or_invalid_price st
      + count is_malformed lines + count is_price_failure lines
  ∧ log (fold_left clean_line lines st) = log st ++ skipped_entries lines.
Proof.
  induction lines as [|l ls IH]; intros st; simpl.
  - rewrite !count_nil. unfold skipped_entries. simpl.
    rewrite app_nil_r. repeat split; lia.
  - destruct (IH (clean_line st l)) as (-> & -> & ->).
    destruct (clean_line_counters st l) as (-> & -> & ->).
    rewrite !count_cons. unfold skipped_entries. rewrite filter_cons.
    destruct (is_malformed l); simpl.
    + rewrite <- app_assoc. simpl. repeat split; lia.
    + rewrite app_nil_r. repeat split; lia.
Qed.

(** ** The rows counter *)

(** C6, as stated, fails: the line [AAA,100.5] is neither blank nor a
    header, yet the loop leaves before [rows_read += 1], and the counter
    stays at 0 where the claim counts one row. *)
Lemma C6_malformed_line_not_read :
  is_nonblank_nonheader "AAA,100.5" = true
  ∧ rows_read (clean_lines ["AAA,100.5"]) = 0
  ∧ rows_read (clean_lines ["AAA,100.5"])
    ≠ count is_nonblank_nonheader ["AAA,100.5"].
Proof. vm_compute. done. Qed.

(** C6, amended: the "read" counter is the number of non-blank lines
    with at least 3 fields that are not headers, each counted once
    whatever its price field holds; lines with fewer than 3 fields are
    not counted. *)
Theorem C6_rows_read_counts_data_rows (lines : list string) :
  rows_read (clean_lines lines) = count is_data_row lines.
Proof.
  unfold clean_lines.
  destruct (clean_fold_counters lines clean_init) as (-> & _). simpl. lia.
Qed.

(** ** Header lines *)

(** C7, as stated, fails: the two fields of [date,ticker] are the
    header names, but the column test comes first, so the line is
    counted in [empty_or_invalid_price] and gets an audit entry. *)
Lemma C7_short_header_is_malformed :
  looks_like_header "date,ticker" = true
  ∧ empty_or_invalid_price (clean_line clean_init "date,ticker") = 1
  ∧ log (clean_line clean_init "date,ticker") = [Skipped "date,ticker"]
  ∧ clean_line clean_init "date,ticker" ≠ clean_init.
Proof. vm_compute. done. Qed.

(** C7, amended: a line with at least 3 fields whose first two stripped
    fields are "date" and "ticker" in any case is skipped silently: the
    loop leaves every counter, the log and both dictionaries as they
    were. *)
Theorem C7_header_skipped (st : clean_state) (line : string) :
  looks_like_header line = true → (3 <= num_fields line)%nat →
  clean_line st line = st.
Proof. apply clean_line_header. Qed.

Lemma C7_header_skipped_witness :
  clean_line clean_init " Date , TICKER,close_price,extra" = clean_init.
Proof.
  apply (C7_header_skipped clean_init " Date , TICKER,close_price,extra").
  - vm_compute. reflexivity.
  - vm_compute. lia.
Defined.

(** ** The counter of removed rows *)

(** C10: a non-blank line with fewer than 3 fields adds 1 to
    [empty_or_invalid_price], the counter that rows with a missing,
    non-numeric or non-positive price add 1 to, and appends its own
    [Skipped] entry to the log at once; so the count of the [Removed]
    line of the final log is the number of malformed lines plus the
    number of price failures. *)
Theorem C10_removed_count_aggregates :
  (∀ st line, is_malformed line = true →
     clean_line st line =
       {| log := log st ++ [Skipped (PyStr.prefix 80 (PyStr.strip line))];
          rows_read := rows_read st;
          empty_or_invalid_price := empty_or_invalid_price st + 1;
          duplicate_keys := duplicate_keys st;
          last_seen := last_seen st |})
  ∧ (∀ st line, is_price_failure line = true →
       empty_or_invalid_price (clean_line st line)
         = empty_or_invalid_price st + 1
       ∧ log (clean_line st line) = log st)
  ∧ (∀ lines rn cn,
       let st := clean_lines lines in
       let n := count is_malformed lines + count is_price_failure lines in
       empty_or_invalid_price st = n
       ∧ final_log rn cn st
         = skipped_entries lines
           ++ [ReadRows (count is_data_row lines) rn]
           ++ (if bool_decide (n ≠ 0) then [Removed n] else [])
           ++ (if bool_decide (duplicate_rows_dropped st ≠ 0)
               then [Resolved (num_duplicate_pairs st) (duplicate_rows_dropped st)]
               else [])
           ++ [Written (rows_written st) cn]).
Proof.
  split; [exact clean_line_malformed|]. split.
  - intros st line H. by rewrite clean_line_price_failure.
  - intros lines rn cn st n. subst st n. unfold final_log, clean_lines.
    destruct (clean_fold_counters lines clean_init) as (-> & -> & ->).
    simpl. split; [lia|].
    replace (0 + count is_data_row lines) with (count is_data_row lines) by lia.
    replace (0 + count is_malformed lines + count is_price_failure lines)
      with (count is_malformed lines + count is_price_failure lines) by lia.
    reflexivity.
Qed.

Lemma C10_removed_count_aggregates_witness :
  clean_line clean_init "2023-01-03 TICK01 100.0"
  = {| log := [Skipped "2023-01-03 TICK01 100.0"];
       rows_read := 0;
       empty_or_invalid_price := 1;
       duplicate_keys := ∅;
       last_seen := ∅ |}
  ∧ empty_or_invalid_price (clean_line clean_init "2023-01-03,TICK02,abc") = 1.
Proof.
  split.
  - apply (proj1 C10_removed_count_aggregates clean_init
             "2023-01-03 TICK01 100.0").
    vm_compute. reflexivity.
  - apply (proj1 (proj2 C10_removed_count_aggregates) clean_init
             "2023-01-03,TICK02,abc").
    vm_compute. reflexivity.
Defined.

(** ** A missing input file *)

(** C8: when the raw file does not exist, [clean_and_save_prices]
    raises [FileNotFoundError] with a message that ends with the path
    it tried, and the files are left as they were: the clean file is
    neither created nor written. *)
Theorem C8_source_not_found (BASE : string) (fs : files) :
  raw_file fs = None →
  clean_and_save_prices BASE fs
  = (inl (FileNotFoundError ("Input file not found: " +:+ PRICES_RAW BASE)), fs).
Proof. intros H. unfold clean_and_save_prices. by rewrite H. Qed.

Lemma C8_source_not_found_witness :
  clean_and_save_prices "/srv/app" {| raw_file := None; clean_file := None |}
  = (inl (FileNotFoundError
            "Input file not found: /srv/app/stock_prices_1.csv"),
     {| raw_file := None; clean_file := None |}).
Proof.
  apply (C8_source_not_found "/srv/app"
           {| raw_file := None; clean_file := None |}).
  reflexivity.
Defined.

(** * Properties of the calendar *)

Lemma dates_fold_snoc rows r :
  fold_left dates_step (rows ++ [r]) (∅, [])
  = dates_step (fold_left dates_step rows (∅, [])) r.
Proof. by rewrite fold_left_app. Qed.

(** [seen] is the set of the elements of [out]. *)
Lemma dates_seen_out rows :
  (fold_left dates_step rows (∅, [])).1
  = list_to_set (fold_left dates_step rows (∅, [])).2.
Proof.
  induction rows as [|r rows IH] using rev_ind; [done|].
  rewrite dates_fold_snoc. unfold dates_step at 1 3.
  case_bool_decide; [done|]. simpl.
  rewrite list_to_set_app_L, IH. simpl.
  by rewrite (right_id_L ∅ (∪)), (comm_L (∪)).
Qed.

Lemma get_trading_dates_snoc rows r :
  get_trading_dates_ordered (rows ++ [r])
  = if bool_decide (r.1.1 ∈ get_trading_dates_ordered rows)
    then get_trading_dates_ordered rows
    else get_trading_dates_ordered rows ++ [r.1.1].
Proof.
  unfold get_trading_dates_ordered. rewrite dates_fold_snoc.
  unfold dates_step. rewrite dates_seen_out.
  case_bool_decide as H; rewrite elem_of_list_to_set in H.
  - by rewrite bool_decide_eq_true_2.
  - by rewrite bool_decide_eq_false_2.
Qed.

Lemma get_trading_dates_elem rows d :
  d ∈ get_trading_dates_ordered rows ↔ d ∈ rows.*1.*1.
Proof.
  revert d. induction rows as [|r rows IH] using rev_ind; intros d.
  - unfold get_trading_dates_ordered. simpl. done.
  - rewrite get_trading_dates_snoc, !fmap_app. simpl.
    rewrite elem_of_app, list_elem_of_singleton, <- IH.
    case_bool_decide as H.
    + split; [by left|]. intros [?| ->]; done.
    + by rewrite elem_of_app, list_elem_of_singleton.
Qed.

Lemma get_trading_dates_NoDup rows : NoDup (get_trading_dates_ordered rows).
Proof.
  induction rows as [|r rows IH] using rev_ind.
  - unfold get_trading_dates_ordered. simpl. constructor.
  - rewrite get_trading_dates_snoc. case_bool_decide as H; [done|].
    apply NoDup_app. split; [done|]. split.
    + intros x Hx ->%list_elem_of_singleton. done.
    + apply NoDup_singleton.
Qed.

Lemma first_seen_at_elem rows d :
  d ∈ rows.*1.*1 → ∃ a, first_seen_at rows d = Some a ∧ (a < length rows)%nat.
Proof.
  intros Hd. unfold first_seen_at.
  apply list_elem_of_fmap in Hd as (p & -> & Hp).
  apply list_elem_of_fmap in Hp as (r & -> & Hr).
  destruct (list_find (λ r0 : row, r0.1.1 = r.1.1) rows) as [[a x]|] eqn:Hf.
  - exists a. split; [done|].
    apply list_find_Some in Hf as (Hl & _). by apply lookup_lt_Some in Hl.
  - apply list_find_None in Hf. rewrite Forall_forall in Hf.
    exfalso. by apply (Hf r).
Qed.

Lemma first_seen_at_snoc_old rows r d a :
  first_seen_at rows d = Some a → first_seen_at (rows ++ [r]) d = Some a.
Proof.
  unfold first_seen_at. intros H.
  destruct (list_find _ rows) as [[a' x]|] eqn:Hf; [|done].
  simpl in H. injection H as ->.
  erewrite (proj2 (list_find_app_Some _ rows [r] a x)); [done|]. by left.
Qed.

Lemma first_seen_at_snoc_new rows r :
  r.1.1 ∉ rows.*1.*1 →
  first_seen_at (rows ++ [r]) r.1.1 = Some (length rows).
Proof.
  intros Hn. unfold first_seen_at.
  erewrite (proj2 (list_find_app_Some _ rows [r] (length rows) r)); [done|].
  right. split; [lia|]. split.
  - apply list_find_None, Forall_forall. intros x Hx Heq.
    apply Hn. rewrite <- Heq.
    apply list_elem_of_fmap. exists x.1. split; [done|].
    apply list_elem_of_fmap. by exists x.
  - rewrite Nat.sub_diag. simpl. by rewrite decide_True.
Qed.

(** The dates come out in the order of their first rows. *)
Lemma get_trading_dates_order rows : ∀ i j di dj,
  get_trading_dates_ordered rows !! i = Some di →
  get_trading_dates_ordered rows !! j = Some dj →
  (i < j)%nat →
  ∃ a b, first_seen_at rows di = Some a ∧ first_seen_at rows dj = Some b
         ∧ (a < b)%nat.
Proof.
  induction rows as [|r rows IH] using rev_ind; intros i j di dj Hi Hj Hij.
  - unfold get_trading_dates_ordered in Hi. simpl in Hi. done.
  - rewrite get_trading_dates_snoc in Hi, Hj.
    case_bool_decide as Hin.
    + destruct (IH i j di dj Hi Hj Hij) as (a & b & Ha & Hb & Hab).
      exists a, b. eauto using first_seen_at_snoc_old.
    + apply lookup_app_Some in Hj as [Hj|[Hlen Hj]].
      * assert (Hi' : get_trading_dates_ordered rows !! i = Some di).
        { apply lookup_lt_Some in Hj.
          rewrite lookup_app_l in Hi by lia. done. }
        destruct (IH i j di dj Hi' Hj Hij) as (a & b & Ha & Hb & Hab).
        exists a, b. eauto using first_seen_at_snoc_old.
      * apply list_lookup_singleton_Some in Hj as [Hj0 <-].
        assert (Hi' : get_trading_dates_ordered rows !! i = Some di).
        { rewrite lookup_app_l in Hi by lia. done. }
        assert (Hdi : di ∈ rows.*1.*1).
        { apply get_trading_dates_elem. by eapply list_elem_of_lookup_2. }
        destruct (first_seen_at_elem rows di Hdi) as (a & Ha & Hlt).
        exists a, (length rows). split; [by apply first_seen_at_snoc_old|].
        split; [|done]. apply first_seen_at_snoc_new.
        by rewrite <- get_trading_dates_elem.
Qed.

Lemma enumerate_snoc {A : Type} (l : list A) (x : A) :
  enumerate (l ++ [x]) = enumerate l ++ [(Z.of_nat (length l), x)].
Proof.
  unfold enumerate. rewrite imap_app. simpl.
  by rewrite Nat.add_0_r.
Qed.

Lemma build_date_to_index_snoc dates d :
  build_date_to_index (dates ++ [d])
  = <[d := Z.of_nat (length dates)]> (build_date_to_index dates).
Proof.
  unfold build_date_to_index. by rewrite enumerate_snoc, fold_left_app.
Qed.

(** On a list without repetition the map sends each date to its
    position and nothing else to anything. *)
Lemma build_date_to_index_lookup dates : NoDup dates → ∀ d k,
  build_date_to_index dates !! d = Some k
  ↔ ∃ i, k = Z.of_nat i ∧ dates !! i = Some d.
Proof.
  induction dates as [|x dates IH] using rev_ind; intros Hnd d k.
  - unfold build_date_to_index. simpl. rewrite lookup_empty.
    split; [done|]. by intros (i & _ & ?).
  - apply NoDup_app in Hnd as (Hnd & Hx & _).
    rewrite build_date_to_index_snoc.
    destruct (decide (x = d)) as [->|Hne].
    + rewrite lookup_insert_eq. split.
      * intros [= <-]. exists (length dates). split; [done|].
        rewrite lookup_app_r by lia. by rewrite Nat.sub_diag.
      * intros (i & -> & Hi). f_equal. f_equal.
        apply lookup_app_Some in Hi as [Hi|[Hle Hi]].
        -- exfalso. apply (Hx d); [by eapply list_elem_of_lookup_2|].
           by apply list_elem_of_singleton.
        -- apply list_lookup_singleton_Some in Hi as [Hi _]. lia.
    + rewrite lookup_insert_ne by done. rewrite (IH Hnd). split.
      * intros (i & -> & Hi). exists i. split; [done|].
        by apply lookup_app_l_Some.
      * intros (i & -> & Hi). exists i. split; [done|].
        apply lookup_app_Some in Hi as [Hi|[Hle Hi]]; [done|].
        apply list_lookup_singleton_Some in Hi as [_ ?]. done.
Qed.

Lemma index_of_nat {A : Type} (l : list A) (i : nat) :
  PyList.index l (Z.of_nat i) = l !! i.
Proof.
  unfold PyList.index.
  destruct (Z.ltb_spec (Z.of_nat i) 0) as [?|_]; [lia|].
  destruct (Z.ltb_spec (Z.of_nat i) 0) as [?|_]; [lia|].
  by rewrite Nat2Z.id.
Qed.

(** C9: the calendar of a table lists each of its dates exactly once,
    in the order of the first rows that carry them, and position and
    date determine each other: [date_to_index[dates[i]] = i] at every
    position [i], and [dates[date_to_index[d]] = d] at every date [d]
    of the map. *)
Theorem C9_calendar_bijection (rows : list row) :
  let dates := get_trading_dates_ordered rows in
  let date_to_index := build_date_to_index dates in
  NoDup dates
  ∧ (∀ d, d ∈ dates ↔ d ∈ rows.*1.*1)
  ∧ (∀ i j di dj,
       dates !! i = Some di → dates !! j = Some dj → (i < j)%nat →
       ∃ a b, first_seen_at rows di = Some a
              ∧ first_seen_at rows dj = Some b ∧ (a < b)%nat)
  ∧ (∀ i d, dates !! i = Some d → date_to_index !! d = Some (Z.of_nat i))
  ∧ (∀ d k, date_to_index !! d = Some k → PyList.index dates k = Some d).
Proof.
  intros dates date_to_index.
  pose proof (get_trading_dates_NoDup rows) as Hnd.
  split; [done|]. split; [apply get_trading_dates_elem|].
  split; [apply get_trading_dates_order|]. split.
  - intros i d Hi. apply build_date_to_index_lookup; eauto.
  - intros d k Hk.
    apply build_date_to_index_lookup in Hk as (i & -> & Hi); [|done].
    by rewrite index_of_nat.
Qed.

Lemma C9_calendar_bijection_witness :
  build_date_to_index
    (get_trading_dates_ordered
       [("2023-01-04", "B", PyFloat.one); ("2023-01-03", "A", PyFloat.one);
        ("2023-01-04", "A", PyFloat.one)])
  !! "2023-01-03" = Some 1.
Proof.
  apply (proj1 (proj2 (proj2 (proj2 (C9_calendar_bijection
           [("2023-01-04", "B", PyFloat.one); ("2023-01-03", "A", PyFloat.one);
            ("2023-01-04", "A", PyFloat.one)])))) 1%nat "2023-01-03").
  reflexivity.
Defined.

(** * Properties of the ranking *)

(** C3: the ranking returns [None] exactly when the target date is not
    a key of the date-to-index map, and returns the empty list when the
    index of the target date is below the window; both are returns, not
    exceptions, and they differ. *)
Theorem C3_sentinels (rows : list row) (target_date : string)
    (dates : list string) (date_to_index : gmap string Z) (window : Z) :
  (compute_top5_momentum_for_date rows target_date dates date_to_index window
     = inr None
   ↔ date_to_index !! target_date = None)
  ∧ (∀ idx, date_to_index !! target_date = Some idx → idx < window →
       compute_top5_momentum_for_date rows target_date dates date_to_index window
       = inr (Some []))
  ∧ (inr None : exn + option (list (string * float))) ≠ inr (Some []).
Proof.
  unfold compute_top5_momentum_for_date. split; [|split; [|done]].
  - destruct (date_to_index !! target_date) as [idx|]; [|done].
    split; [|done].
    destruct (idx <? window); [done|].
    by destruct (PyList.index dates (idx - window)).
  - intros idx -> Hlt. apply Z.ltb_lt in Hlt. by rewrite Hlt.
Qed.

Lemma C3_sentinels_witness :
  compute_top5_momentum_for_date
    [("2023-01-03", "A", PyFloat.one)] "2023-01-03" ["2023-01-03"]
    {["2023-01-03" := 0]} 20
  = inr (Some [])
  ∧ compute_top5_momentum_for_date
      [("2023-01-03", "A", PyFloat.one)] "2023-01-05" ["2023-01-03"]
      {["2023-01-03" := 0]} 20
    = inr None.
Proof.
  split.
  - apply (proj1 (proj2 (C3_sentinels
             [("2023-01-03", "A", PyFloat.one)] "2023-01-03" ["2023-01-03"]
             {["2023-01-03" := 0]} 20)) 0); [reflexivity | lia].
  - apply (proj1 (C3_sentinels
             [("2023-01-03", "A", PyFloat.one)] "2023-01-05" ["2023-01-03"]
             {["2023-01-03" := 0]} 20)).
    reflexivity.
Defined.

(** * Prices that are not numbers *)

(** [float("nan")] is a float, and [nan <= 0] is false: the test of the
    loop does not stop it. *)
Lemma nan_passes_price_test :
  PyFloat.of_string "nan" = Some PyFloat.nan
  ∧ PyFloat.leb PyFloat.nan PyFloat.zero = false
  ∧ ¬ strictly_positive PyFloat.nan.
Proof. vm_compute. split; [done|]. split; done. Qed.

(** C1, at a failing input: the raw file with the one data line
    [2023-01-03,AAA,nan] gives a clean table whose only row carries the
    price NaN, which is not strictly positive. *)
Theorem C1_nan_price_kept :
  clean_and_save_prices "/srv/app"
    {| raw_file := Some ["date,ticker,close_price"; "2023-01-03,AAA,nan"];
       clean_file := None |}
  = (inr (1, [ReadRows 1 "stock_prices_1.csv"; Written 1 "stock_prices_2.csv"]),
     {| raw_file := Some ["date,ticker,close_price"; "2023-01-03,AAA,nan"];
        clean_file :=
          Some (["date"; "ticker"; "close_price"],
                [("2023-01-03", "AAA", PyFloat.nan)]) |})
  ∧ ¬ strictly_positive PyFloat.nan.
Proof. vm_compute. split; done. Qed.

(** C2, at a failing input: the key [(2023-01-03, AAA)] has the
    positive prices 1.0 then 2.0 and then a NaN; the table keeps the
    NaN, not 2.0, and the log reports 2 rows dropped where the two
    positive rows make 1. *)
Theorem C2_nan_overwrites_last_positive :
  let lines := ["2023-01-03,AAA,1.0"; "2023-01-03,AAA,2.0";
                "2023-01-03,AAA,nan"] in
  map line_price lines = [Some (flt "1.0"); Some (flt "2.0"); Some PyFloat.nan]
  ∧ strictly_positive (flt "1.0") ∧ strictly_positive (flt "2.0")
  ∧ ¬ strictly_positive PyFloat.nan
  ∧ canonical_table (clean_lines lines) = [("2023-01-03", "AAA", PyFloat.nan)]
  ∧ final_log raw_name clean_name (clean_lines lines)
    = [ReadRows 3 "stock_prices_1.csv"; Resolved 1 2;
       Written 1 "stock_prices_2.csv"].
Proof. vm_compute. repeat split; done. Qed.

(** C4, at a failing input: AAA has the price NaN on the reference
    date, which is not strictly positive, and is ranked all the same,
    with the momentum NaN. *)
Theorem C4_nan_reference_price_ranked :
  let rows : list row :=
    [("2023-01-02", "AAA", PyFloat.nan); ("2023-01-03", "AAA", flt "1.0")] in
  let dates := get_trading_dates_ordered rows in
  dates = ["2023-01-02"; "2023-01-03"]
  ∧ ¬ strictly_positive PyFloat.nan
  ∧ compute_top5_momentum_for_date rows "2023-01-03" dates
      (build_date_to_index dates) 1
    = inr (Some [("AAA", PyFloat.nan)]).
Proof. vm_compute. repeat split; done. Qed.

(** A momentum that is NaN compares false with every key, and the sort
    leaves 2.0 behind 1.0: the list below has no adjacent inversion for
    [<] and comes back as it went in. *)
Lemma nan_momentum_breaks_order :
  let rows : list row :=
    [("2023-01-02", "AAA", flt "1.0"); ("2023-01-02", "BBB", PyFloat.nan);
     ("2023-01-02", "CCC", flt "1.0"); ("2023-01-03", "AAA", flt "2.0");
     ("2023-01-03", "BBB", flt "1.0"); ("2023-01-03", "CCC", flt "3.0")] in
  let dates := get_trading_dates_ordered rows in
  compute_top5_momentum_for_date rows "2023-01-03" dates
    (build_date_to_index dates) 1
  = inr (Some [("AAA", flt "1.0"); ("BBB", PyFloat.nan); ("CCC", flt "2.0")])
  ∧ PyFloat.ltb (flt "1.0") (flt "2.0") = true.
Proof. vm_compute. split; done. Qed.

(** C5, as stated, fails: the two tables below hold the same rows in
    two orders, and the later of the two rows of [(2023-01-03, AAA)]
    decides the price, so the rankings differ. *)
Lemma C5_row_order_changes_ranking :
  let rows_a : list row :=
    [("2023-01-02", "AAA", flt "1.0"); ("2023-01-03", "AAA", flt "2.0");
     ("2023-01-03", "AAA", flt "3.0")] in
  let rows_b : list row :=
    [("2023-01-02", "AAA", flt "1.0"); ("2023-01-03", "AAA", flt "3.0");
     ("2023-01-03", "AAA", flt "2.0")] in
  let dates := ["2023-01-02"; "2023-01-03"] in
  rows_a ≡ₚ rows_b
  ∧ get_trading_dates_ordered rows_a = dates
  ∧ get_trading_dates_ordered rows_b = dates
  ∧ compute_top5_momentum_for_date rows_a "2023-01-03" dates
      (build_date_to_index dates) 1
    = inr (Some [("AAA", flt "2.0")])
  ∧ compute_top5_momentum_for_date rows_b "2023-01-03" dates
      (build_date_to_index dates) 1
    = inr (Some [("AAA", flt "1.0")])
  ∧ compute_top5_momentum_for_date rows_a "2023-01-03" dates
      (build_date_to_index dates) 1
    ≠ compute_top5_momentum_for_date rows_b "2023-01-03" dates
        (build_date_to_index dates) 1.
Proof.
  split; [apply perm_skip, perm_swap|].
  vm_compute. repeat split; done.
Qed.

(** * The sort *)

Section SortFacts.
Context {A : Type} (lt : A → A → bool) (P : A → Prop).

(** [<] orders the elements that satisfy [P]: it is asymmetric, and
    being not smaller is transitive. *)
Hypothesis lt_asym : ∀ x y, P x → P y → lt x y = true → lt y x = false.
Hypothesis lt_negtrans : ∀ x y z, P x → P y → P z →
  lt x y = false → lt y z = false → lt x z = false.

Lemma insert_back_Permutation x r : PyList.insert_back lt x r ≡ₚ x :: r.
Proof.
  induction r as [|y r IH]; simpl; [done|].
  destruct (lt x y); [|done]. rewrite IH. apply perm_swap.
Qed.

Lemma sort_fold_Permutation l : ∀ racc,
  fold_left (fun racc x => PyList.insert_back lt x racc) l racc ≡ₚ l ++ racc.
Proof.
  induction l as [|x l IH]; intros racc; simpl; [done|].
  rewrite IH, insert_back_Permutation. by rewrite Permutation_middle.
Qed.

Lemma sort_Permutation l : PyList.sort lt l ≡ₚ l.
Proof.
  unfold PyList.sort. rewrite <- Permutation_rev.
  rewrite sort_fold_Permutation. by rewrite app_nil_r.
Qed.

(** The reversed prefix is sorted when no element is smaller than one
    that follows it. *)
Lemma insert_back_sorted x r :
  P x → Forall P r →
  StronglySorted (fun a b => lt a b = false) r →
  StronglySorted (fun a b => lt a b = false) (PyList.insert_back lt x r).
Proof.
  intros Hx Hr Hs. induction Hs as [|y r Hs IH Hy]; simpl.
  - repeat constructor.
  - apply Forall_cons in Hr as [HPy HPr].
    destruct (lt x y) eqn:Hxy.
    + constructor; [by apply IH|].
      rewrite Forall_forall. intros z Hz.
      rewrite insert_back_Permutation in Hz.
      apply elem_of_cons in Hz as [->|Hz]; [by apply lt_asym|].
      rewrite Forall_forall in Hy. by apply Hy.
    + constructor; [by constructor|].
      constructor; [done|].
      rewrite Forall_forall in Hy, HPr |- *. intros z Hz.
      apply (lt_negtrans x y z); auto.
Qed.

Lemma sort_fold_sorted l : ∀ racc,
  Forall P l → Forall P racc →
  StronglySorted (fun a b => lt a b = false) racc →
  StronglySorted (fun a b => lt a b = false)
    (fold_left (fun racc x => PyList.insert_back lt x racc) l racc).
Proof.
  induction l as [|x l IH]; intros racc Hl Hracc Hs; simpl; [done|].
  apply Forall_cons in Hl as [Hx Hl].
  apply IH; [done| |by apply insert_back_sorted].
  rewrite insert_back_Permutation. by constructor.
Qed.

Lemma StronglySorted_rev (R : relation A) l :
  StronglySorted R l → StronglySorted (flip R) (rev l).
Proof.
  induction 1 as [|x l Hs IH Hx]; simpl; [constructor|].
  apply StronglySorted_app_2; [|done|repeat constructor].
  intros x1 x2 Hx1 ->%list_elem_of_singleton.
  rewrite Forall_forall in Hx. apply Hx.
  apply list_elem_of_In. apply in_rev. by apply list_elem_of_In.
Qed.

(** The sorted list: no element is smaller than one before it. *)
Lemma sort_sorted l :
  Forall P l → StronglySorted (fun a b => lt b a = false) (PyList.sort lt l).
Proof.
  intros Hl. unfold PyList.sort.
  apply (StronglySorted_rev (fun a b => lt a b = false)).
  apply sort_fold_sorted; [done|constructor|constructor].
Qed.

End SortFacts.

(** * The order of the floats *)

Lemma pos_compare_cont_Eq m1 m2 : Pos.compare_cont Eq m1 m2 = (m1 ?= m2)%positive.
Proof. reflexivity. Qed.

Lemma float_ltb_spec (a b : float) :
  PyFloat.is_nan a = false → PyFloat.is_nan b = false →
  PyFloat.ltb a b = true ↔ lt3 (fkey a) (fkey b).
Proof.
  unfold PyFloat.ltb, SFltb, lt3.
  destruct a as [sa|sa| |sa ma ea], b as [sb|sb| |sb mb eb];
    try discriminate; intros _ _;
    try destruct sa; try destruct sb; simpl;
    try rewrite pos_compare_cont_Eq;
    try (destruct (Z.compare_spec ea eb) as [?|?|?]);
    try (destruct (Pos.compare_spec ma mb) as [?|?|?]);
    simpl; split; intros ?; try discriminate; try reflexivity; try lia.
Qed.

Lemma float_eqb_spec (a b : float) :
  PyFloat.is_nan a = false → PyFloat.is_nan b = false →
  PyFloat.eqb a b = true ↔ fkey a = fkey b.
Proof.
  unfold PyFloat.eqb, SFeqb.
  destruct a as [sa|sa| |sa ma ea], b as [sb|sb| |sb mb eb];
    try discriminate; intros _ _;
    try destruct sa; try destruct sb; simpl;
    try rewrite pos_compare_cont_Eq;
    try (destruct (Z.compare_spec ea eb) as [?|?|?]);
    try (destruct (Pos.compare_spec ma mb) as [?|?|?]);
    simpl; split; intros Hk; try discriminate; try reflexivity;
    try (injection Hk; intros; lia); try (f_equal; [f_equal|]; lia).
Qed.

Lemma float_compare_neg (a b : float) :
  SFcompare (PyFloat.neg a) (PyFloat.neg b) = SFcompare b a.
Proof.
  destruct a as [sa|sa| |sa ma ea], b as [sb|sb| |sb mb eb];
    try destruct sa; try destruct sb; simpl; try reflexivity;
    rewrite ?pos_compare_cont_Eq; rewrite (Z.compare_antisym ea eb);
    destruct (ea ?= eb); simpl; try reflexivity;
    change (Pos.compare_cont Eq mb ma) with (mb ?= ma)%positive;
    rewrite (Pos.compare_antisym ma mb);
    destruct (ma ?= mb)%positive; reflexivity.
Qed.

Lemma float_eqb_neg a b : PyFloat.eqb (PyFloat.neg a) (PyFloat.neg b) = PyFloat.eqb b a.
Proof. unfold PyFloat.eqb, SFeqb. by rewrite float_compare_neg. Qed.

Lemma float_ltb_neg a b : PyFloat.ltb (PyFloat.neg a) (PyFloat.neg b) = PyFloat.ltb b a.
Proof. unfold PyFloat.ltb, SFltb. by rewrite float_compare_neg. Qed.

Lemma lt3_irrefl a : ¬ lt3 a a.
Proof. unfold lt3. lia. Qed.

Lemma lt3_trans a b c : lt3 a b → lt3 b c → lt3 a c.
Proof. unfold lt3. lia. Qed.

Lemma lt3_trichotomy a b : lt3 a b ∨ a = b ∨ lt3 b a.
Proof.
  destruct a as [[a1 a2] a3], b as [[b1 b2] b3]. unfold lt3. simpl.
  destruct (Z.lt_trichotomy a1 b1) as [?|[->|?]]; [lia| |lia].
  destruct (Z.lt_trichotomy a2 b2) as [?|[->|?]]; [lia| |lia].
  destruct (Z.lt_trichotomy a3 b3) as [?|[->|?]]; [lia| |lia].
  right. by left.
Qed.

(** * The order of the strings *)

Lemma str_ltb_lt a b : PyStr.ltb a b = true ↔ String_as_OT.lt a b.
Proof.
  unfold PyStr.ltb, String.ltb. rewrite <- String_as_OT.cmp_lt.
  unfold String_as_OT.cmp. destruct (String.compare a b); by split.
Qed.

Lemma str_ltb_irrefl a : PyStr.ltb a a = false.
Proof.
  destruct (PyStr.ltb a a) eqn:H; [|done].
  apply str_ltb_lt in H. by apply String_as_OT.lt_not_eq in H.
Qed.

Lemma str_ltb_trans a b c :
  PyStr.ltb a b = true → PyStr.ltb b c = true → PyStr.ltb a c = true.
Proof. rewrite !str_ltb_lt. apply String_as_OT.lt_trans. Qed.

Lemma str_ltb_asym a b : PyStr.ltb a b = true → PyStr.ltb b a = false.
Proof.
  intros Hab. destruct (PyStr.ltb b a) eqn:Hba; [|done].
  pose proof (str_ltb_trans _ _ _ Hab Hba) as H.
  by rewrite str_ltb_irrefl in H.
Qed.

Lemma str_ltb_total a b :
  PyStr.ltb a b = false → PyStr.ltb b a = false → a = b.
Proof.
  unfold PyStr.ltb, String.ltb. rewrite (String.compare_antisym b a).
  destruct (String.compare a b) eqn:H; simpl; try done.
  intros _ _. by apply String.compare_eq_iff.
Qed.

Lemma str_ltb_negtrans a b c :
  PyStr.ltb a b = false → PyStr.ltb b c = false → PyStr.ltb a c = false.
Proof.
  intros Hab Hbc. destruct (PyStr.ltb a c) eqn:Hac; [|done].
  destruct (PyStr.ltb b a) eqn:Hba.
  - by rewrite (str_ltb_trans _ _ _ Hba Hac) in Hbc.
  - rewrite (str_ltb_total a b Hab Hba) in Hac. by rewrite Hac in Hbc.
Qed.

(** * The order of the ranking *)

Lemma rank_ltb_spec x y : not_nan x → not_nan y →
  rank_ltb x y = true
  ↔ lt3 (fkey y.2) (fkey x.2)
    ∨ (fkey x.2 = fkey y.2 ∧ PyStr.ltb x.1 y.1 = true).
Proof.
  intros Hx Hy. unfold rank_ltb. rewrite float_eqb_neg, float_ltb_neg.
  destruct (PyFloat.eqb y.2 x.2) eqn:He.
  - apply float_eqb_spec in He; [|done..]. split.
    + intros H. right. by split.
    + intros [H|[_ H]]; [|done]. rewrite He in H. by apply lt3_irrefl in H.
  - rewrite float_ltb_spec by done. split; [by left|].
    intros [H|[H _]]; [done|].
    symmetry in H. apply float_eqb_spec in H; [|done..]. congruence.
Qed.

Lemma rank_ltb_ranks_before x y : not_nan x → not_nan y →
  rank_ltb x y = true ↔ ranks_before x y.
Proof.
  intros Hx Hy. rewrite rank_ltb_spec by done. unfold ranks_before.
  by rewrite float_ltb_spec, float_eqb_spec.
Qed.

Lemma rank_ltb_asym x y : not_nan x → not_nan y →
  rank_ltb x y = true → rank_ltb y x = false.
Proof.
  intros Hx Hy Hxy. destruct (rank_ltb y x) eqn:Hyx; [|done].
  apply rank_ltb_spec in Hxy, Hyx; [|done..].
  destruct Hxy as [H1|[E1 S1]], Hyx as [H2|[E2 S2]].
  - by destruct (lt3_irrefl _ (lt3_trans _ _ _ H1 H2)).
  - rewrite E2 in H1. by apply lt3_irrefl in H1.
  - rewrite E1 in H2. by apply lt3_irrefl in H2.
  - by rewrite (str_ltb_asym _ _ S1) in S2.
Qed.

Lemma rank_ltb_negtrans x y z : not_nan x → not_nan y → not_nan z →
  rank_ltb x y = false → rank_ltb y z = false → rank_ltb x z = false.
Proof.
  intros Hx Hy Hz Hxy Hyz. destruct (rank_ltb x z) eqn:Hxz; [|done].
  apply rank_ltb_spec in Hxz; [|done..].
  assert (Nxy : ¬ (lt3 (fkey y.2) (fkey x.2)
                   ∨ fkey x.2 = fkey y.2 ∧ PyStr.ltb x.1 y.1 = true)).
  { rewrite <- rank_ltb_spec by done. by rewrite Hxy. }
  assert (Nyz : ¬ (lt3 (fkey z.2) (fkey y.2)
                   ∨ fkey y.2 = fkey z.2 ∧ PyStr.ltb y.1 z.1 = true)).
  { rewrite <- rank_ltb_spec by done. by rewrite Hyz. }
  exfalso.
  destruct (lt3_trichotomy (fkey x.2) (fkey y.2)) as [Lxy|[Exy|Lyx]];
    [| |by apply Nxy; left];
  (destruct (lt3_trichotomy (fkey y.2) (fkey z.2)) as [Lyz|[Eyz|Lzy]];
    [| |by apply Nyz; left]).
  - destruct Hxz as [H|[E _]].
    + by destruct (lt3_irrefl _ (lt3_trans _ _ _ (lt3_trans _ _ _ Lxy Lyz) H)).
    + rewrite E in Lxy. by destruct (lt3_irrefl _ (lt3_trans _ _ _ Lyz Lxy)).
  - destruct Hxz as [H|[E _]].
    + rewrite <- Eyz in H. by destruct (lt3_irrefl _ (lt3_trans _ _ _ Lxy H)).
    + rewrite E, Eyz in Lxy. by apply lt3_irrefl in Lxy.
  - destruct Hxz as [H|[E _]].
    + rewrite Exy in H. by destruct (lt3_irrefl _ (lt3_trans _ _ _ Lyz H)).
    + rewrite <- Exy, E in Lyz. by apply lt3_irrefl in Lyz.
  - destruct Hxz as [H|[E S]].
    + rewrite Exy, Eyz in H. by apply lt3_irrefl in H.
    + destruct (PyStr.ltb x.1 y.1) eqn:Sxy; [by apply Nxy; right|].
      destruct (PyStr.ltb y.1 z.1) eqn:Syz; [by apply Nyz; right|].
      by rewrite (str_ltb_negtrans _ _ _ Sxy Syz) in S.
Qed.

(** Two entries with different tickers are ordered one way or the
    other. *)
Lemma rank_ltb_total x y : not_nan x → not_nan y → x.1 ≠ y.1 →
  rank_ltb y x = false → rank_ltb x y = true.
Proof.
  intros Hx Hy Hne Hyx. apply rank_ltb_spec; [done..|].
  assert (N : ¬ (lt3 (fkey x.2) (fkey y.2)
                 ∨ fkey y.2 = fkey x.2 ∧ PyStr.ltb y.1 x.1 = true)).
  { rewrite <- rank_ltb_spec by done. by rewrite Hyx. }
  destruct (lt3_trichotomy (fkey x.2) (fkey y.2)) as [L|[E|L]].
  - exfalso. apply N. by left.
  - right. split; [done|].
    destruct (PyStr.ltb x.1 y.1) eqn:S; [done|]. exfalso.
    destruct (PyStr.ltb y.1 x.1) eqn:S'; [by apply N; right|].
    by apply Hne, str_ltb_total.
  - by left.
Qed.

(** * The grouping pass *)

Lemma price_on_snoc rows r ticker d :
  price_on (rows ++ [r]) ticker d
  = if bool_decide (r.1.2 = ticker ∧ r.1.1 = d) then Some r.2
    else price_on rows ticker d.
Proof. unfold price_on. by rewrite fold_left_app. Qed.

Lemma by_ticker_set_fst bt ticker d price :
  (by_ticker_set bt ticker d price).*1
  = if bool_decide (ticker ∈ bt.*1) then bt.*1 else bt.*1 ++ [ticker].
Proof.
  induction bt as [|[t m] bt IH]; [done|]. cbn [by_ticker_set].
  destruct (decide (t = ticker)) as [->|Ht].
  - rewrite (bool_decide_eq_true_2 (ticker = ticker)) by done.
    rewrite !fmap_cons. cbn [fst].
    rewrite bool_decide_eq_true_2; [done|by left].
  - rewrite (bool_decide_eq_false_2 (t = ticker)) by done.
    rewrite !fmap_cons. cbn [fst].
    rewrite IH. destruct (decide (ticker ∈ bt.*1)) as [Hin|Hin].
    + rewrite (bool_decide_eq_true_2 (ticker ∈ bt.*1)) by done.
      rewrite bool_decide_eq_true_2; [done|by right].
    + rewrite (bool_decide_eq_false_2 (ticker ∈ bt.*1)) by done.
      rewrite bool_decide_eq_false_2; [done|].
      intros [?|?]%elem_of_cons; [by subst|done].
Qed.

Lemma by_ticker_set_NoDup bt ticker d price :
  NoDup bt.*1 → NoDup (by_ticker_set bt ticker d price).*1.
Proof.
  intros Hnd. rewrite by_ticker_set_fst. case_bool_decide as Hin; [done|].
  apply NoDup_app. split; [done|]. split; [|apply NoDup_singleton].
  intros x Hx ->%list_elem_of_singleton. done.
Qed.

Lemma by_ticker_set_to_map bt ticker d price :
  (list_to_map (by_ticker_set bt ticker d price)
     : gmap string (gmap string float))
  = <[ticker := <[d := price]>
                  (default ∅ ((list_to_map bt
                                : gmap string (gmap string float)) !! ticker))]>
      (list_to_map bt).
Proof.
  induction bt as [|[t m] bt IH]; simpl.
  - by rewrite lookup_empty, insert_empty.
  - destruct (decide (t = ticker)) as [->|Ht].
    + rewrite bool_decide_eq_true_2 by done. simpl.
      by rewrite lookup_insert_eq, insert_insert_eq.
    + rewrite bool_decide_eq_false_2 by done. simpl.
      rewrite IH, lookup_insert_ne by done. by apply insert_insert_ne.
Qed.

Lemma group_by_ticker_snoc rows r :
  group_by_ticker (rows ++ [r])
  = by_ticker_set (group_by_ticker rows) r.1.2 r.1.1 r.2.
Proof. unfold group_by_ticker. by rewrite fold_left_app. Qed.

Lemma group_by_ticker_NoDup rows : NoDup (group_by_ticker rows).*1.
Proof.
  induction rows as [|r rows IH] using rev_ind; [constructor|].
  rewrite group_by_ticker_snoc. by apply by_ticker_set_NoDup.
Qed.

(** The dictionary of a ticker holds its last price on each date. *)
Lemma group_by_ticker_lookup rows ticker d :
  (list_to_map (group_by_ticker rows) : gmap string (gmap string float))
    !! ticker ≫= (fun m => m !! d)
  = price_on rows ticker d.
Proof.
  induction rows as [|r rows IH] using rev_ind; [done|].
  rewrite group_by_ticker_snoc, by_ticker_set_to_map, price_on_snoc.
  destruct (decide (r.1.2 = ticker)) as [Ht|Ht].
  - rewrite Ht, lookup_insert_eq. simpl.
    destruct (decide (r.1.1 = d)) as [Hd|Hd].
    + rewrite Hd, lookup_insert_eq. by rewrite bool_decide_eq_true_2.
    + rewrite lookup_insert_ne by done.
      rewrite bool_decide_eq_false_2 by (by intros [_ ?]).
      rewrite <- IH.
      by destruct (list_to_map (group_by_ticker rows) !! ticker).
  - rewrite lookup_insert_ne by done.
    by rewrite bool_decide_eq_false_2 by (by intros [? _]).
Qed.

Lemma candidates_fold target_date date_20_ago bt : ∀ acc,
  fold_left (momentum_step target_date date_20_ago) bt acc
  = acc ++ omap (candidate_of target_date date_20_ago) bt.
Proof.
  induction bt as [|item bt IH]; intros acc; simpl.
  - by rewrite app_nil_r.
  - rewrite IH. unfold momentum_step, candidate_of.
    destruct (item.2 !! target_date) as [p_today|]; [|done].
    destruct (item.2 !! date_20_ago) as [p_20|]; [|done].
    destruct (PyFloat.leb p_20 PyFloat.zero); [done|].
    by rewrite <- app_assoc.
Qed.

Lemma candidates_omap rows target_date date_20_ago :
  candidates rows target_date date_20_ago
  = omap (candidate_of target_date date_20_ago) (group_by_ticker rows).
Proof. unfold candidates. by rewrite candidates_fold. Qed.

(** The candidates: the tickers with a price on both dates whose
    price on the reference date passes the test [p_20 <= 0], each with
    the momentum of these two prices. *)
Lemma candidates_spec rows target_date date_20_ago ticker m :
  (ticker, m) ∈ candidates rows target_date date_20_ago
  ↔ ∃ p_today p_20,
      price_on rows ticker target_date = Some p_today
      ∧ price_on rows ticker date_20_ago = Some p_20
      ∧ PyFloat.leb p_20 PyFloat.zero = false
      ∧ m = momentum p_today p_20.
Proof.
  rewrite candidates_omap, list_elem_of_omap.
  pose proof (group_by_ticker_NoDup rows) as Hnd.
  rewrite <- !group_by_ticker_lookup. split.
  - intros ([t mp] & Hin & Hc).
    apply elem_of_list_to_map in Hin; [|done].
    unfold candidate_of in Hc. simpl in Hc.
    destruct (mp !! target_date) as [p_today|] eqn:H1; [|done].
    destruct (mp !! date_20_ago) as [p_20|] eqn:H2; [|done].
    destruct (PyFloat.leb p_20 PyFloat.zero) eqn:H3; [done|].
    injection Hc as -> <-. exists p_today, p_20.
    rewrite Hin. simpl. by rewrite H1, H2.
  - intros (p_today & p_20 & H1 & H2 & H3 & ->).
    destruct (list_to_map (group_by_ticker rows) !! ticker) as [mp|] eqn:Hm;
      [|done].
    simpl in H1, H2. exists (ticker, mp). split.
    + by apply elem_of_list_to_map.
    + unfold candidate_of. simpl. by rewrite H1, H2, H3.
Qed.

Lemma candidate_of_fst target_date date_20_ago item c :
  candidate_of target_date date_20_ago item = Some c → c.1 = item.1.
Proof.
  unfold candidate_of.
  destruct (item.2 !! target_date); [|done].
  destruct (item.2 !! date_20_ago); [|done].
  destruct (PyFloat.leb _ _); [done|]. by intros [= <-].
Qed.

(** A ticker is a candidate at most once. *)
Lemma candidates_NoDup rows target_date date_20_ago :
  NoDup (candidates rows target_date date_20_ago).*1.
Proof.
  rewrite candidates_omap.
  pose proof (group_by_ticker_NoDup rows) as Hnd.
  induction (group_by_ticker rows) as [|item bt IH]; simpl; [constructor|].
  apply NoDup_cons in Hnd as [Hni Hnd].
  destruct (candidate_of target_date date_20_ago item) as [c|] eqn:Hc;
    [|by apply IH].
  simpl. apply NoDup_cons. split; [|by apply IH].
  rewrite (candidate_of_fst _ _ _ _ Hc). intros Hin. apply Hni.
  apply list_elem_of_fmap in Hin as (c' & -> & Hc').
  apply list_elem_of_omap in Hc' as (item' & Hin' & Hc'').
  rewrite (candidate_of_fst _ _ _ _ Hc'').
  apply list_elem_of_fmap. by exists item'.
Qed.

(** ** Tables with one row per key *)

Lemma price_on_unique rows : NoDup rows.*1 → ∀ ticker d p,
  price_on rows ticker d = Some p ↔ (d, ticker, p) ∈ rows.
Proof.
  induction rows as [|r rows IH] using rev_ind; intros Hnd ticker d p.
  - split; [done|]. by intros ?%elem_of_nil.
  - rewrite fmap_app in Hnd. apply NoDup_app in Hnd as (Hnd & Hr & _).
    rewrite price_on_snoc, elem_of_app, list_elem_of_singleton.
    destruct r as [[rd rt] rp]. simpl in *.
    case_bool_decide as Hk.
    + destruct Hk as [-> ->]. split.
      * intros [= <-]. by right.
      * intros [Hin|[= <-]]; [|done]. exfalso.
        apply (Hr (d, ticker)); [|by left].
        apply list_elem_of_fmap. by exists (d, ticker, p).
    + rewrite (IH Hnd). split; [by left|].
      intros [?|[= -> -> ->]]; [done|]. by destruct Hk.
Qed.

Lemma price_on_Permutation rows rows' ticker d :
  NoDup rows.*1 → rows ≡ₚ rows' →
  price_on rows' ticker d = price_on rows ticker d.
Proof.
  intros Hnd Hp. assert (Hnd' : NoDup rows'.*1) by by rewrite <- Hp.
  apply option_eq. intros p.
  rewrite !price_on_unique by done. by rewrite Hp.
Qed.

Lemma pair_NoDup_fst {B : Type} (l : list (string * B)) : NoDup l.*1 → NoDup l.
Proof. apply NoDup_fmap_1. Qed.

Lemma candidates_Permutation rows rows' target_date date_20_ago :
  NoDup rows.*1 → rows ≡ₚ rows' →
  candidates rows' target_date date_20_ago
  ≡ₚ candidates rows target_date date_20_ago.
Proof.
  intros Hnd Hp.
  apply NoDup_Permutation; try apply pair_NoDup_fst, candidates_NoDup.
  intros [ticker m]. rewrite !candidates_spec.
  by setoid_rewrite (price_on_Permutation rows rows' _ _ Hnd Hp).
Qed.

(** ** The sorted ranking *)

Lemma same_ticker_same_entry (l : list (string * float)) x y :
  NoDup l.*1 → x ∈ l → y ∈ l → x.1 = y.1 → x = y.
Proof.
  intros Hnd Hx Hy Heq. destruct x as [t m1], y as [t' m2]. simpl in Heq.
  subst t'. f_equal.
  apply (elem_of_list_to_map (M := gmap string)) in Hx, Hy; [|done..].
  congruence.
Qed.

Lemma rank_sort_unique (l1 l2 : list (string * float)) :
  l1 ≡ₚ l2 → NoDup l1.*1 → Forall not_nan l1 →
  PyList.sort rank_ltb l1 = PyList.sort rank_ltb l2.
Proof.
  intros Hp Hnd Hnn.
  assert (Hnn2 : Forall not_nan l2) by by rewrite <- Hp.
  apply (StronglySorted_unique_strong (fun a b => rank_ltb b a = false)).
  - intros x1 x2 Hx1 Hx2 H21 H12.
    rewrite sort_Permutation in Hx1, Hx2. rewrite <- Hp in Hx2.
    rewrite Forall_forall in Hnn.
    apply (same_ticker_same_entry l1); [done..|].
    destruct (decide (x1.1 = x2.1)) as [|Hne]; [done|].
    rewrite (rank_ltb_total x1 x2) in H12; auto. done.
  - by apply (sort_sorted rank_ltb not_nan rank_ltb_asym rank_ltb_negtrans).
  - by apply (sort_sorted rank_ltb not_nan rank_ltb_asym rank_ltb_negtrans).
  - by rewrite !sort_Permutation.
Qed.

Lemma rank_sorted_ranks_before (l : list (string * float)) :
  NoDup l.*1 → Forall not_nan l →
  StronglySorted (fun a b => rank_ltb b a = false) l →
  StronglySorted ranks_before l.
Proof.
  intros Hnd Hnn Hs. induction Hs as [|x l Hs IH Hx]; [constructor|].
  rewrite fmap_cons in Hnd.
  apply NoDup_cons in Hnd as [Hni Hnd]. apply Forall_cons in Hnn as [Hxn Hnn].
  constructor; [by apply IH|].
  rewrite Forall_forall in Hx, Hnn |- *. intros y Hy.
  apply rank_ltb_ranks_before; [done|by apply Hnn|].
  apply rank_ltb_total; [done|by apply Hnn| |by apply Hx].
  intros Heq. apply Hni. rewrite Heq. apply list_elem_of_fmap. by exists y.
Qed.

Lemma rank_sort_ranks_before (l : list (string * float)) :
  NoDup l.*1 → Forall not_nan l →
  StronglySorted ranks_before (PyList.sort rank_ltb l).
Proof.
  intros Hnd Hnn. apply rank_sorted_ranks_before.
  - by rewrite sort_Permutation.
  - by rewrite sort_Permutation.
  - by apply (sort_sorted rank_ltb not_nan rank_ltb_asym rank_ltb_negtrans).
Qed.

Lemma StronglySorted_take {A : Type} (R : relation A) n l :
  StronglySorted R l → StronglySorted R (take n l).
Proof.
  intros Hs. rewrite <- (take_drop n l) in Hs.
  by apply StronglySorted_app_1_l in Hs.
Qed.

(** C5, amended: on a table with at most one row per [(date, ticker)]
    and a query none of whose candidates has the momentum NaN, the
    ranking is sorted by momentum descending with equal momentums in
    ascending order of ticker, holds 5 entries or all the candidates
    when there are fewer, and is the same for every order of the
    rows of the table. *)
Theorem C5_ranking_sorted_and_order_free (rows rows' : list row)
    (target_date : string) (dates : list string)
    (date_to_index : gmap string Z) (window : Z) :
  NoDup rows.*1 → rows ≡ₚ rows' →
  no_nan_momentum rows target_date dates date_to_index window →
  compute_top5_momentum_for_date rows' target_date dates date_to_index window
  = compute_top5_momentum_for_date rows target_date dates date_to_index window
  ∧ ∀ l,
      compute_top5_momentum_for_date rows target_date dates date_to_index window
      = inr (Some l) →
      StronglySorted ranks_before l
      ∧ (length l <= 5)%nat
      ∧ ∀ idx date_20_ago,
          date_to_index !! target_date = Some idx → window <= idx →
          PyList.index dates (idx - window) = Some date_20_ago →
          length l
          = Nat.min 5 (length (candidates rows target_date date_20_ago)).
Proof.
  intros Hnd Hp Hnn. unfold compute_top5_momentum_for_date.
  destruct (date_to_index !! target_date) as [idx|] eqn:Hidx.
  2: { split; [done|]. intros l [=]. }
  destruct (Z.ltb_spec idx window) as [Hlt|Hge].
  { split; [done|]. intros l [= <-]. split; [constructor|].
    split; [simpl; lia|]. intros idx' ref [= <-] ?. lia. }
  destruct (PyList.index dates (idx - window)) as [ref|] eqn:Href.
  2: { split; [done|]. intros l [=]. }
  specialize (Hnn idx ref Hidx Hge Href).
  pose proof (candidates_NoDup rows target_date ref) as Hcn.
  split.
  - do 3 f_equal. apply rank_sort_unique.
    + by apply candidates_Permutation.
    + by rewrite candidates_Permutation.
    + by rewrite candidates_Permutation.
  - intros l [= <-]. split; [|split].
    + by apply StronglySorted_take, rank_sort_ranks_before.
    + rewrite length_take. lia.
    + intros idx' ref' [= <-] _ Href'. rewrite Href in Href'.
      injection Href' as <-.
      rewrite length_take. f_equal.
      by rewrite (Permutation_length (sort_Permutation rank_ltb _)).
Qed.

Lemma C5_ranking_sorted_and_order_free_witness :
  let rows : list row :=
    [("2023-01-02", "TICK_A", flt "100.0"); ("2023-01-02", "TICK_B", flt "100.0");
     ("2023-01-03", "TICK_A", flt "110.0"); ("2023-01-03", "TICK_B", flt "110.0")] in
  let rows' : list row :=
    [("2023-01-02", "TICK_B", flt "100.0"); ("2023-01-02", "TICK_A", flt "100.0");
     ("2023-01-03", "TICK_B", flt "110.0"); ("2023-01-03", "TICK_A", flt "110.0")] in
  let dates := ["2023-01-02"; "2023-01-03"] in
  compute_top5_momentum_for_date rows' "2023-01-03" dates
    (build_date_to_index dates) 1
  = compute_top5_momentum_for_date rows "2023-01-03" dates
      (build_date_to_index dates) 1.
Proof.
  intros rows rows' dates.
  apply (C5_ranking_sorted_and_order_free rows rows' "2023-01-03" dates
           (build_date_to_index dates) 1).
  - subst rows. apply (bool_decide_unpack _). vm_compute. exact I.
  - subst rows rows'.
    etransitivity; [apply perm_swap|]. do 2 apply perm_skip. apply perm_swap.
  - intros idx ref Hidx _ Href.
    vm_compute in Hidx. injection Hidx as <-.
    vm_compute in Href. injection Href as <-.
    vm_compute. repeat constructor.
Defined.

(** * What the cleaning pass does guarantee *)

(** ** The order of the keys *)

Lemma key_ltb_asym (a b : key) : key_ltb a b = true → key_ltb b a = false.
Proof.
  unfold key_ltb. destruct a as [a1 a2], b as [b1 b2]. simpl.
  destruct (decide (a1 = b1)) as [->|Hne].
  - rewrite !bool_decide_eq_true_2 by done. apply str_ltb_asym.
  - rewrite !bool_decide_eq_false_2 by done. apply str_ltb_asym.
Qed.

Lemma key_ltb_total (a b : key) :
  key_ltb a b = false → key_ltb b a = false → a = b.
Proof.
  unfold key_ltb. destruct a as [a1 a2], b as [b1 b2]. simpl.
  destruct (decide (a1 = b1)) as [->|Hne].
  - rewrite !bool_decide_eq_true_2 by done. intros H1 H2.
    f_equal. by apply str_ltb_total.
  - rewrite !bool_decide_eq_false_2 by done. intros H1 H2.
    destruct Hne. by apply str_ltb_total.
Qed.

Lemma key_ltb_trans (a b c : key) :
  key_ltb a b = true → key_ltb b c = true → key_ltb a c = true.
Proof.
  unfold key_ltb. destruct a as [a1 a2], b as [b1 b2], c as [c1 c2]. simpl.
  destruct (decide (a1 = b1)) as [->|Hab], (decide (b1 = c1)) as [->|Hbc].
  - rewrite !bool_decide_eq_true_2 by done. apply str_ltb_trans.
  - rewrite (bool_decide_eq_true_2 (b1 = b1)) by done.
    rewrite !bool_decide_eq_false_2 by done. done.
  - rewrite (bool_decide_eq_true_2 (c1 = c1)) by done.
    rewrite !bool_decide_eq_false_2 by done. done.
  - rewrite (bool_decide_eq_false_2 (a1 = b1)) by done.
    rewrite (bool_decide_eq_false_2 (b1 = c1)) by done.
    intros H1 H2. pose proof (str_ltb_trans _ _ _ H1 H2) as H.
    rewrite bool_decide_eq_false_2; [done|].
    intros ->. by rewrite str_ltb_irrefl in H.
Qed.

Lemma key_ltb_negtrans (a b c : key) :
  key_ltb a b = false → key_ltb b c = false → key_ltb a c = false.
Proof.
  intros Hab Hbc. destruct (key_ltb a c) eqn:Hac; [|done].
  destruct (key_ltb b a) eqn:Hba.
  - by rewrite (key_ltb_trans _ _ _ Hba Hac) in Hbc.
  - rewrite (key_ltb_total a b Hab Hba) in Hac. by rewrite Hac in Hbc.
Qed.

(** Sorting keys that are all different puts them in strictly
    ascending order. *)
Lemma key_sort_sorted (l : list key) :
  NoDup l → StronglySorted (fun a b => key_ltb a b = true) (PyList.sort key_ltb l).
Proof.
  intros Hnd.
  assert (Hs : StronglySorted (fun a b => key_ltb b a = false)
                 (PyList.sort key_ltb l)).
  { apply (sort_sorted key_ltb (fun _ => True)).
    - intros x y _ _. apply key_ltb_asym.
    - intros x y z _ _ _. apply key_ltb_negtrans.
    - by apply Forall_true. }
  assert (Hnd' : NoDup (PyList.sort key_ltb l)) by by rewrite sort_Permutation.
  induction Hs as [|x s Hs IH Hx]; [constructor|].
  apply NoDup_cons in Hnd' as [Hni Hnd'].
  constructor; [by apply IH|].
  rewrite Forall_forall in Hx |- *. intros y Hy.
  destruct (key_ltb x y) eqn:Hxy; [done|].
  exfalso. apply Hni. rewrite (key_ltb_total x y Hxy (Hx y Hy)). done.
Qed.

(** ** Last write wins *)

Lemma not_kept line :
  is_blank line = true ∨ is_malformed line = true
  ∨ (looks_like_header line = true ∧ (3 <= num_fields line)%nat)
  ∨ is_price_failure line = true →
  is_kept line = false.
Proof.
  unfold is_kept, is_price_failure, is_data_row, is_malformed.
  intros [H|[H|[[H _]|H]]].
  - by rewrite H.
  - apply andb_prop in H as [_ H]. apply Nat.ltb_lt in H.
    destruct (Nat.leb_spec 3 (num_fields line)); [lia|].
    by rewrite andb_false_r.
  - rewrite H. simpl. by rewrite andb_false_r.
  - apply andb_prop in H as [-> H]. apply negb_true_iff in H. by rewrite H.
Qed.

Lemma clean_line_last_seen st line k :
  last_seen (clean_line st line) !! k
  = if kept_with_key k line then line_price line else last_seen st !! k.
Proof.
  unfold kept_with_key.
  destruct (line_kinds line) as [[H|H]|[[H Hn]|[H|H]]].
  - rewrite clean_line_blank, not_kept by auto. done.
  - rewrite clean_line_malformed, not_kept by auto. done.
  - rewrite clean_line_header, not_kept by auto. done.
  - rewrite clean_line_price_failure, not_kept by auto. done.
  - destruct (clean_line_kept st line H) as (k' & price & Hk & Hp & _ & Hcl).
    rewrite Hcl, H, Hk, Hp. simpl.
    destruct (decide (k' = k)) as [->|Hne].
    + by rewrite bool_decide_eq_true_2, lookup_insert_eq.
    + rewrite bool_decide_eq_false_2 by congruence.
      by rewrite lookup_insert_ne.
Qed.

Lemma last_seen_fold lines k : ∀ st,
  last_seen (fold_left clean_line lines st) !! k
  = fold_left
      (fun acc line => if kept_with_key k line then line_price line else acc)
      lines (last_seen st !! k).
Proof.
  induction lines as [|l ls IH]; intros st; simpl; [done|].
  by rewrite IH, clean_line_last_seen.
Qed.

(** [last_seen] holds, for each key, the price of the last line kept
    for it. *)
Lemma last_seen_spec lines k :
  last_seen (clean_lines lines) !! k = kept_price lines k.
Proof. unfold clean_lines, kept_price. by rewrite last_seen_fold. Qed.

Lemma kept_price_snoc lines line k :
  kept_price (lines ++ [line]) k
  = if kept_with_key k line then line_price line else kept_price lines k.
Proof. unfold kept_price. by rewrite fold_left_app. Qed.

Lemma kept_with_key_price k line :
  kept_with_key k line = true →
  ∃ p, line_price line = Some p ∧ PyFloat.leb p PyFloat.zero = false.
Proof.
  unfold kept_with_key, is_kept, price_accepted.
  intros [[_ H]%andb_prop _]%andb_prop.
  destruct (line_price line) as [p|]; [|done].
  exists p. split; [done|]. by apply negb_true_iff.
Qed.

(** Last write wins: the price kept for [k] is the one of a line kept
    for [k] after which no line is kept for [k]. *)
Lemma kept_price_last lines k p :
  kept_price lines k = Some p
  ↔ ∃ before line after,
      lines = before ++ line :: after
      ∧ kept_with_key k line = true ∧ line_price line = Some p
      ∧ Forall (fun l => kept_with_key k l = false) after.
Proof.
  induction lines as [|l lines IH] using rev_ind.
  - split; [done|]. intros (b & x & a & H & _). by destruct b.
  - rewrite kept_price_snoc. destruct (kept_with_key k l) eqn:Hl.
    + split.
      * intros Hp. exists lines, l, []. by repeat split.
      * intros (b & x & a & Heq & Hx & Hp & Ha).
        destruct a as [|y a _] using rev_ind.
        -- apply app_inj_tail in Heq as [_ ->]. done.
        -- rewrite app_comm_cons, app_assoc in Heq.
           apply app_inj_tail in Heq as [_ ->].
           rewrite Forall_app, Forall_singleton in Ha.
           destruct Ha as [_ Ha]. congruence.
    + rewrite IH. split.
      * intros (b & x & a & -> & Hx & Hp & Ha).
        exists b, x, (a ++ [l]). rewrite <- app_assoc. simpl.
        repeat split; [done..|]. rewrite Forall_app, Forall_singleton.
        by split.
      * intros (b & x & a & Heq & Hx & Hp & Ha).
        destruct a as [|y a _] using rev_ind.
        -- apply app_inj_tail in Heq as [_ ->]. congruence.
        -- rewrite app_comm_cons, app_assoc in Heq.
           apply app_inj_tail in Heq as [-> ->].
           rewrite Forall_app in Ha. destruct Ha as [Ha _].
           exists b, x, a. by repeat split.
Qed.

(** No price of [last_seen] is [<= 0]. *)
Lemma last_seen_not_le0 lines k p :
  last_seen (clean_lines lines) !! k = Some p →
  PyFloat.leb p PyFloat.zero = false.
Proof.
  rewrite last_seen_spec, kept_price_last.
  intros (_ & line & _ & _ & Hk & Hp & _).
  destruct (kept_with_key_price k line Hk) as (p' & Hp' & Hle). congruence.
Qed.

(** ** The clean table *)

Lemma canonical_table_keys st :
  (canonical_table st).*1 = PyList.sort key_ltb (map_to_list (last_seen st)).*1.
Proof.
  unfold canonical_table.
  rewrite <- list_fmap_compose. rewrite <- (list_fmap_id (PyList.sort _ _)) at 2.
  apply list_fmap_ext. by intros _ [d t] _.
Qed.

(** The rows of the clean table are in strictly ascending order of
    [(date, ticker)]. *)
Lemma canonical_table_sorted st :
  StronglySorted (fun a b => key_ltb a b = true) (canonical_table st).*1.
Proof.
  rewrite canonical_table_keys. apply key_sort_sorted, NoDup_fst_map_to_list.
Qed.

(** No key has two rows. *)
Lemma canonical_table_NoDup st : NoDup (canonical_table st).*1.
Proof.
  rewrite canonical_table_keys, sort_Permutation.
  apply NoDup_fst_map_to_list.
Qed.

(** The rows are the entries of [last_seen]. *)
Lemma canonical_table_elem st d t p :
  (d, t, p) ∈ canonical_table st ↔ last_seen st !! (d, t) = Some p.
Proof.
  unfold canonical_table. rewrite list_elem_of_fmap. split.
  - intros ([d' t'] & [= -> -> ->] & Hin). simpl.
    rewrite sort_Permutation in Hin.
    apply list_elem_of_fmap in Hin as ([k v] & -> & Hin). simpl.
    apply elem_of_map_to_list in Hin.
    by rewrite (lookup_total_correct _ _ _ Hin).
  - intros H. exists (d, t). simpl. split.
    + by rewrite (lookup_total_correct _ _ _ H).
    + rewrite sort_Permutation. apply list_elem_of_fmap.
      exists (d, t, p). split; [done|]. by apply elem_of_map_to_list.
Qed.

(** What holds of the clean table for every raw input: one row per
    key, rows in ascending order of key, and each row carries the price
    of the last line kept for its key, a price that passed the test
    [price <= 0]. *)
Theorem clean_table_invariants (lines : list string) :
  let table := canonical_table (clean_lines lines) in
  NoDup table.*1
  ∧ StronglySorted (fun a b => key_ltb a b = true) table.*1
  ∧ ∀ d t p, (d, t, p) ∈ table ↔ kept_price lines (d, t) = Some p.
Proof.
  intros table. split; [apply canonical_table_NoDup|].
  split; [apply canonical_table_sorted|].
  intros d t p. subst table.
  by rewrite canonical_table_elem, last_seen_spec.
Qed.

Lemma clean_table_not_le0 (lines : list string) d t p :
  (d, t, p) ∈ canonical_table (clean_lines lines) →
  PyFloat.leb p PyFloat.zero = false.
Proof. rewrite canonical_table_elem. apply last_seen_not_le0. Qed.

(** A kept price that is a number is strictly positive. *)
Lemma not_le0_positive (p : float) :
  PyFloat.leb p PyFloat.zero = false → PyFloat.is_nan p = false →
  strictly_positive p.
Proof.
  unfold strictly_positive, PyFloat.leb, PyFloat.ltb, SFleb, SFltb, PyFloat.zero.
  destruct p as [s|[]| |[] m e]; simpl; done.
Qed.

(** ** The duplicate counters *)

Lemma clean_line_duplicate_keys st line k :
  duplicate_keys (clean_line st line) !! k
  = if kept_with_key k line then
      match last_seen st !! k with
      | Some _ => Some (default 1 (duplicate_keys st !! k) + 1)
      | None => duplicate_keys st !! k
      end
    else duplicate_keys st !! k.
Proof.
  unfold kept_with_key.
  destruct (line_kinds line) as [[H|H]|[[H Hn]|[H|H]]].
  - rewrite clean_line_blank, not_kept by auto. done.
  - rewrite clean_line_malformed, not_kept by auto. done.
  - rewrite clean_line_header, not_kept by auto. done.
  - rewrite clean_line_price_failure, not_kept by auto. done.
  - destruct (clean_line_kept st line H) as (k' & price & Hk & Hp & _ & Hcl).
    rewrite Hcl, H, Hk. simpl.
    destruct (decide (k' = k)) as [->|Hne].
    + rewrite bool_decide_eq_true_2 by done.
      destruct (last_seen st !! k); [|done]. by rewrite lookup_insert_eq.
    + rewrite bool_decide_eq_false_2 by congruence.
      destruct (last_seen st !! k'); [|done]. by rewrite lookup_insert_ne.
Qed.

Lemma clean_lines_snoc lines line :
  clean_lines (lines ++ [line]) = clean_line (clean_lines lines) line.
Proof. unfold clean_lines. by rewrite fold_left_app. Qed.

Lemma kept_count_snoc lines line k :
  kept_count (lines ++ [line]) k
  = kept_count lines k + b2z (kept_with_key k line).
Proof.
  unfold kept_count, count. rewrite filter_app, length_app, filter_cons.
  destruct (kept_with_key k line); simpl; lia.
Qed.

(** A key is in [last_seen] once a line is kept for it, and in
    [duplicate_keys], with the number of lines kept for it, once there
    are two. *)
Lemma duplicate_keys_spec lines k :
  (is_Some (last_seen (clean_lines lines) !! k) ↔ 1 <= kept_count lines k)
  ∧ duplicate_keys (clean_lines lines) !! k
    = if 2 <=? kept_count lines k then Some (kept_count lines k) else None.
Proof.
  induction lines as [|l lines [IH1 IH2]] using rev_ind.
  - unfold kept_count. rewrite count_nil. simpl. split; [|done].
    rewrite lookup_empty. split; [by intros [? ?]|lia].
  - rewrite clean_lines_snoc, clean_line_last_seen,
      clean_line_duplicate_keys, kept_count_snoc.
    pose proof (count_nonneg (kept_with_key k) lines) as Hc.
    fold (kept_count lines k) in Hc.
    destruct (kept_with_key k l) eqn:Hl; simpl.
    + destruct (kept_with_key_price k l Hl) as (p & -> & _).
      split; [split; [lia|eauto]|].
      destruct (last_seen (clean_lines lines) !! k) as [q|] eqn:Hq.
      * assert (1 <= kept_count lines k) by (apply IH1; eauto).
        rewrite IH2.
        destruct (Z.leb_spec 2 (kept_count lines k));
          destruct (Z.leb_spec 2 (kept_count lines k + 1)); simpl;
          try lia; f_equal; lia.
      * assert (¬ 1 <= kept_count lines k).
        { intros Hge. apply IH1 in Hge as [? ?]. done. }
        rewrite IH2.
        destruct (Z.leb_spec 2 (kept_count lines k));
          destruct (Z.leb_spec 2 (kept_count lines k + 1)); simpl;
          try lia; done.
    + by rewrite Z.add_0_r.
Qed.

(** * Momentums that are numbers *)

Lemma iter_pos_invariant {T : Type} (Q : T → Prop) (f : T → T) :
  (∀ x, Q x → Q (f x)) → ∀ p x, Q x → Q (SpecFloat.iter_pos f p x).
Proof.
  intros Hf. induction p as [p IH|p IH|]; intros x Hx; simpl; auto.
Qed.

Lemma shr_1_nonneg mrs : 0 <= shr_m mrs → 0 <= shr_m (shr_1 mrs).
Proof.
  destruct mrs as [m r s]. simpl.
  destruct m as [|[p|p|]|[p|p|]]; simpl; lia.
Qed.

Lemma shr_fexp_nonneg m e l :
  0 <= m → 0 <= shr_m (shr_fexp PyFloat.prec PyFloat.emax m e l).1.
Proof.
  intros Hm. unfold shr_fexp, shr.
  assert (H0 : 0 <= shr_m (shr_record_of_loc m l)).
  { by destruct l as [|[]]. }
  destruct (fexp _ _ _ - e); simpl; [done| |done].
  by apply (iter_pos_invariant (fun mrs => 0 <= shr_m mrs)), H0; apply shr_1_nonneg.
Qed.

Lemma round_nearest_even_nonneg m l : 0 <= m → 0 <= round_nearest_even m l.
Proof.
  intros Hm. destruct l as [|[]]; simpl; try lia.
  destruct (Z.even m); lia.
Qed.

(** Rounding a mantissa that is not negative never gives NaN. *)
Lemma binary_round_aux_not_nan sx mx ex lx :
  0 <= mx →
  PyFloat.is_nan (binary_round_aux PyFloat.prec PyFloat.emax sx mx ex lx) = false.
Proof.
  intros Hm. unfold binary_round_aux.
  pose proof (shr_fexp_nonneg mx ex lx Hm) as H1.
  destruct (shr_fexp PyFloat.prec PyFloat.emax mx ex lx) as [mrs' e'].
  simpl in H1.
  pose proof (shr_fexp_nonneg _ e' loc_Exact
                (round_nearest_even_nonneg _ (loc_of_shr_record mrs') H1)) as H2.
  destruct (shr_fexp PyFloat.prec PyFloat.emax _ e' loc_Exact) as [mrs'' e''].
  simpl in H2.
  destruct (shr_m mrs'') as [|p|p]; [done| |lia].
  by destruct (e'' <=? _).
Qed.

Lemma div_finite_not_nan (x y : float) :
  is_finite x = true → is_finite y = true →
  PyFloat.leb y PyFloat.zero = false →
  PyFloat.is_nan (PyFloat.div x y) = false.
Proof.
  destruct x as [sx| | |sx mx ex], y as [sy| | |sy my ey]; try done.
  intros _ _ _. unfold PyFloat.div, SFdiv.
  destruct (SFdiv_core_binary _ _ _ _ _ _) as [[mz ez] lz] eqn:Hd.
  apply binary_round_aux_not_nan.
  unfold SFdiv_core_binary in Hd.
  set (m' := match _ with Z0 => Zpos mx | Zpos _ => _ | Zneg _ => 0 end) in Hd.
  assert (Hm' : 0 <= m').
  { subst m'. destruct (_ - _ - _); [lia| |lia]. apply Z.shiftl_nonneg. lia. }
  pose proof (Z_div_mod m' (Zpos my) eq_refl) as Hdiv.
  destruct (Z.div_eucl m' (Zpos my)) as [q r]. injection Hd as <- _ _.
  destruct Hdiv as [Heq Hr]. nia.
Qed.

Lemma sub_one_not_nan (x : float) :
  PyFloat.is_nan x = false → PyFloat.is_nan (PyFloat.sub x PyFloat.one) = false.
Proof.
  destruct x as [sx|sx| |sx mx ex]; try done.
  intros _. unfold PyFloat.sub, SFsub, PyFloat.one.
  unfold binary_normalize.
  destruct (_ - _) as [|m|m]; [done| |]; unfold binary_round;
    destruct (shl_align _ _ _) as [mz ez];
    by apply binary_round_aux_not_nan.
Qed.

(** The momentum of two finite prices, the second not [<= 0], is a
    number. *)
Lemma momentum_not_nan (p_today p_20 : float) :
  is_finite p_today = true → is_finite p_20 = true →
  PyFloat.leb p_20 PyFloat.zero = false →
  PyFloat.is_nan (momentum p_today p_20) = false.
Proof.
  intros H1 H2 H3. unfold momentum.
  by apply sub_one_not_nan, div_finite_not_nan.
Qed.

Lemma price_on_elem rows ticker d p :
  price_on rows ticker d = Some p → p ∈ rows.*2.
Proof.
  induction rows as [|r rows IH] using rev_ind; [done|].
  rewrite price_on_snoc, fmap_app, elem_of_app. case_bool_decide.
  - intros [= <-]. right. by left.
  - intros Hp. left. by apply IH.
Qed.

(** A table whose prices are all finite has no NaN momentum. *)
Lemma finite_prices_no_nan_momentum rows target_date dates date_to_index window :
  Forall (fun p => is_finite p = true) rows.*2 →
  no_nan_momentum rows target_date dates date_to_index window.
Proof.
  intros Hfin idx ref _ _ _.
  pose proof (proj1 (Forall_forall _ _) Hfin) as Hf.
  apply Forall_forall.
  intros [ticker m] (p_today & p_20 & H1 & H2 & H3 & ->)%candidates_spec.
  apply momentum_not_nan; [| |done]; apply Hf; by eapply price_on_elem.
Qed.

(** * What the ranking does guarantee *)

(** Every ranked entry is a candidate: a ticker with a price on both
    dates whose price on the reference date is not [<= 0], with the
    momentum of these two prices. *)
Lemma ranked_entries_spec rows target_date dates date_to_index window l
    idx date_20_ago ticker m :
  date_to_index !! target_date = Some idx → window <= idx →
  PyList.index dates (idx - window) = Some date_20_ago →
  compute_top5_momentum_for_date rows target_date dates date_to_index window
  = inr (Some l) →
  (ticker, m) ∈ l →
  ∃ p_today p_20,
    price_on rows ticker target_date = Some p_today
    ∧ price_on rows ticker date_20_ago = Some p_20
    ∧ PyFloat.leb p_20 PyFloat.zero = false
    ∧ m = momentum p_today p_20.
Proof.
  intros Hidx Hge Href. unfold compute_top5_momentum_for_date.
  rewrite Hidx. destruct (Z.ltb_spec idx window) as [?|_]; [lia|].
  rewrite Href. intros [= <-] Hin.
  apply candidates_spec.
  apply elem_of_take in Hin as (i & Hin & _).
  apply list_elem_of_lookup_2 in Hin.
  by rewrite sort_Permutation in Hin.
Qed.

(** With 5 candidates or fewer, every candidate is ranked. *)
Lemma few_candidates_all_ranked rows target_date dates date_to_index window
    idx date_20_ago :
  date_to_index !! target_date = Some idx → window <= idx →
  PyList.index dates (idx - window) = Some date_20_ago →
  (length (candidates rows target_date date_20_ago) <= 5)%nat →
  ∃ l,
    compute_top5_momentum_for_date rows target_date dates date_to_index window
    = inr (Some l)
    ∧ l ≡ₚ candidates rows target_date date_20_ago.
Proof.
  intros Hidx Hge Href Hlen. unfold compute_top5_momentum_for_date.
  rewrite Hidx. destruct (Z.ltb_spec idx window) as [?|_]; [lia|].
  rewrite Href. eexists. split; [done|].
  rewrite take_ge; [apply sort_Permutation|].
  by rewrite (Permutation_length (sort_Permutation rank_ltb _)).
Qed.

(** * More on the cleaning pass *)

(** The clean table has one row per [(date, ticker)] and its rows are
    in strictly ascending order of [(date, ticker)], whatever the raw
    lines are. *)
Theorem clean_table_unique_sorted (lines : list string) :
  let table := canonical_table (clean_lines lines) in
  NoDup table.*1 ∧ StronglySorted (fun a b => key_ltb a b = true) table.*1.
Proof. split; [apply canonical_table_NoDup|apply canonical_table_sorted]. Qed.

(** Last write wins: [(d, t, p)] is a row of the clean table exactly
    when [p] is the price of a line kept for [(d, t)] after which no
    line is kept for [(d, t)]. *)
Theorem clean_table_last_write_wins (lines : list string) d t p :
  (d, t, p) ∈ canonical_table (clean_lines lines)
  ↔ ∃ before line after,
      lines = before ++ line :: after
      ∧ kept_with_key (d, t) line = true ∧ line_price line = Some p
      ∧ Forall (fun l => kept_with_key (d, t) l = false) after.
Proof. by rewrite canonical_table_elem, last_seen_spec, kept_price_last. Qed.

(** No price of the clean table is [<= 0], and one that is a number is
    strictly positive. *)
Theorem clean_table_prices (lines : list string) d t p :
  (d, t, p) ∈ canonical_table (clean_lines lines) →
  PyFloat.leb p PyFloat.zero = false
  ∧ (PyFloat.is_nan p = false → strictly_positive p).
Proof.
  intros Hin. pose proof (clean_table_not_le0 lines d t p Hin) as Hle.
  split; [done|]. by apply not_le0_positive.
Qed.

Lemma clean_table_prices_witness :
  PyFloat.leb (flt "100.5") PyFloat.zero = false
  ∧ (PyFloat.is_nan (flt "100.5") = false → strictly_positive (flt "100.5")).
Proof.
  apply (clean_table_prices
           ["2023-01-03,AAA,-1"; "2023-01-03,AAA,100.5"] "2023-01-03" "AAA").
  vm_compute. by left.
Defined.


(** ** The sum of the duplicate counters *)

Lemma sum_comm (j1 j2 : key) (z1 z2 y : Z) : z1 + (z2 + y) = z2 + (z1 + y).
Proof. lia. Qed.

Lemma sum_insert_None (m : gmap key Z) k v :
  m !! k = None →
  map_fold (fun _ v acc => v + acc) 0 (<[k := v]> m)
  = v + map_fold (fun _ v acc => v + acc) 0 m.
Proof.
  intros Hk. apply (map_fold_insert_L (fun _ v acc => v + acc)); [|done].
  intros. lia.
Qed.

Lemma sum_insert_Some (m : gmap key Z) k v v' :
  m !! k = Some v →
  map_fold (fun _ v acc => v + acc) 0 (<[k := v']> m)
  = v' + map_fold (fun _ v acc => v + acc) 0 m - v.
Proof.
  intros Hk.
  rewrite (map_fold_delete_L (fun _ v acc => v + acc) 0 k v m); [|intros; lia|done].
  rewrite <- (insert_delete_eq m), sum_insert_None by apply lookup_delete_eq.
  lia.
Qed.

Lemma sum_at_least_twice_size (m : gmap key Z) :
  (∀ k v, m !! k = Some v → 2 <= v) →
  2 * Z.of_nat (size m) <= map_fold (fun _ v acc => v + acc) 0 m.
Proof.
  induction m as [|k v m Hk IH] using map_ind; intros Hv.
  - rewrite map_fold_empty, map_size_empty. lia.
  - rewrite sum_insert_None, map_size_insert_None by done.
    assert (2 <= v) by (apply (Hv k); by rewrite lookup_insert_eq).
    assert (2 * Z.of_nat (size m) <= map_fold (fun _ v acc => v + acc) 0 m).
    { apply IH. intros k' v' Hk'. apply (Hv k').
      rewrite lookup_insert_ne; [done|]. intros ->. congruence. }
    lia.
Qed.

(** What one line adds to the rows written and dropped. *)
Lemma clean_line_written_dropped st line :
  rows_written (clean_line st line) + duplicate_rows_dropped (clean_line st line)
  = rows_written st + duplicate_rows_dropped st + b2z (is_kept line).
Proof.
  destruct (line_kinds line) as [[H|H]|[[H Hn]|[H|H]]].
  - rewrite clean_line_blank, not_kept by auto. simpl. lia.
  - rewrite clean_line_malformed, not_kept by auto.
    unfold rows_written, duplicate_rows_dropped, total_duplicate_occurrences,
      num_duplicate_pairs. simpl. lia.
  - rewrite clean_line_header, not_kept by auto. simpl. lia.
  - rewrite clean_line_price_failure, not_kept by auto.
    unfold rows_written, duplicate_rows_dropped, total_duplicate_occurrences,
      num_duplicate_pairs. simpl. lia.
  - destruct (clean_line_kept st line H) as (k & price & _ & _ & _ & Hcl).
    rewrite Hcl, H.
    unfold rows_written, duplicate_rows_dropped, total_duplicate_occurrences,
      num_duplicate_pairs. simpl.
    destruct (last_seen st !! k) as [q|] eqn:Hq.
    + rewrite map_size_insert_Some by eauto.
      destruct (duplicate_keys st !! k) as [v|] eqn:Hv; simpl.
      * rewrite (sum_insert_Some _ _ v), map_size_insert_Some by eauto. lia.
      * rewrite sum_insert_None, map_size_insert_None by done. lia.
    + rewrite map_size_insert_None by done. lia.
Qed.

Lemma clean_fold_written_dropped lines : ∀ st,
  rows_written (fold_left clean_line lines st)
  + duplicate_rows_dropped (fold_left clean_line lines st)
  = rows_written st + duplicate_rows_dropped st + count is_kept lines.
Proof.
  induction lines as [|l ls IH]; intros st; simpl.
  - rewrite count_nil. lia.
  - rewrite IH, clean_line_written_dropped, count_cons. lia.
Qed.

Lemma data_row_kept_or_failure line :
  b2z (is_data_row line) = b2z (is_kept line) + b2z (is_price_failure line).
Proof.
  unfold is_kept, is_price_failure.
  by destruct (is_data_row line), (price_accepted line).
Qed.

Lemma count_data_rows lines :
  count is_data_row lines = count is_kept lines + count is_price_failure lines.
Proof.
  induction lines as [|l ls IH]; [by rewrite !count_nil|].
  rewrite !count_cons, IH, data_row_kept_or_failure. lia.
Qed.

(** The counters of the log add up: every row read is written, dropped
    as a duplicate, or removed for its price; the counter of removed
    rows holds, besides these, the malformed lines, which are not
    read. *)
Theorem log_counters_add_up (lines : list string) :
  let st := clean_lines lines in
  rows_read st
  = rows_written st + duplicate_rows_dropped st
    + (empty_or_invalid_price st - count is_malformed lines).
Proof.
  intros st. subst st. unfold clean_lines.
  destruct (clean_fold_counters lines clean_init) as (-> & -> & _).
  pose proof (clean_fold_written_dropped lines clean_init) as H.
  rewrite count_data_rows. simpl.
  replace (rows_written clean_init + duplicate_rows_dropped clean_init)
    with 0 in H by (by vm_compute).
  lia.
Qed.

Lemma duplicate_values_at_least_2 lines k v :
  duplicate_keys (clean_lines lines) !! k = Some v → 2 <= v.
Proof.
  destruct (duplicate_keys_spec lines k) as [_ ->].
  destruct (Z.leb_spec 2 (kept_count lines k)); [|done]. intros [= <-]. lia.
Qed.

Lemma dropped_at_least_pairs lines :
  num_duplicate_pairs (clean_lines lines)
  <= duplicate_rows_dropped (clean_lines lines).
Proof.
  unfold duplicate_rows_dropped, total_duplicate_occurrences, num_duplicate_pairs.
  pose proof (sum_at_least_twice_size (duplicate_keys (clean_lines lines))
                (duplicate_values_at_least_2 lines)).
  lia.
Qed.

Lemma skipped_entries_are_skipped e lines :
  e ∈ skipped_entries lines → ∃ s, e = Skipped s.
Proof.
  unfold skipped_entries. intros (l & -> & _)%list_elem_of_fmap. eauto.
Qed.

(** The log has its [Resolved] line exactly when some key is kept at
    least twice; the line then carries the number of such keys and the
    number of rows dropped, which is never negative. *)
Theorem resolved_logged_iff_duplicates (lines : list string) rn cn p d :
  let st := clean_lines lines in
  0 <= duplicate_rows_dropped st
  ∧ (Resolved p d ∈ final_log rn cn st
     ↔ p = num_duplicate_pairs st ∧ d = duplicate_rows_dropped st
       ∧ ∃ k, 2 <= kept_count lines k).
Proof.
  intros st. subst st.
  pose proof (dropped_at_least_pairs lines) as Hge.
  assert (Hnum : 0 <= num_duplicate_pairs (clean_lines lines))
    by (unfold num_duplicate_pairs; lia).
  split; [lia|].
  assert (Hiff : duplicate_rows_dropped (clean_lines lines) ≠ 0
                 ↔ ∃ k, 2 <= kept_count lines k).
  { split.
    - intros Hne.
      destruct (decide (size (duplicate_keys (clean_lines lines)) = 0%nat))
        as [Hz|Hnz].
      + apply map_size_empty_iff in Hz.
        unfold duplicate_rows_dropped, total_duplicate_occurrences,
          num_duplicate_pairs in Hne.
        rewrite Hz, map_fold_empty, map_size_empty in Hne. lia.
      + apply map_size_ne_0_lookup in Hnz as (k & v & Hk).
        exists k. destruct (duplicate_keys_spec lines k) as [_ Hs].
        rewrite Hs in Hk.
        by destruct (Z.leb_spec 2 (kept_count lines k)).
    - intros (k & Hk).
      destruct (duplicate_keys_spec lines k) as [_ Hs].
      destruct (Z.leb_spec 2 (kept_count lines k)); [|lia].
      assert (size (duplicate_keys (clean_lines lines)) ≠ 0%nat).
      { apply map_size_ne_0_lookup. eauto. }
      unfold num_duplicate_pairs in *. lia. }
  unfold final_log.
  destruct (clean_fold_counters lines clean_init) as (_ & _ & Hlog).
  fold (clean_lines lines) in Hlog. simpl in Hlog. rewrite Hlog.
  rewrite !elem_of_app, !list_elem_of_singleton. split.
  - intros [Hs|[Hrd|[Hrm|[Hr|Hw]]]]; try done.
    + by apply skipped_entries_are_skipped in Hs as (s & ?).
    + destruct (bool_decide _);
        [by apply list_elem_of_singleton in Hrm|by apply elem_of_nil in Hrm].
    + case_bool_decide as Hd; [|by apply elem_of_nil in Hr].
      apply list_elem_of_singleton in Hr. injection Hr as -> ->.
      repeat split. by apply Hiff.
  - intros (-> & -> & Hk). right. right. right. left.
    rewrite bool_decide_eq_true_2 by by apply Hiff.
    by apply list_elem_of_singleton.
Qed.

(** ** Lines that do nothing *)

Lemma clean_line_inert st line : is_inert line = true → clean_line st line = st.
Proof.
  unfold is_inert. intros [H|[H Hn]%andb_prop]%orb_prop.
  - by apply clean_line_blank.
  - apply clean_line_header; [done|]. by apply Nat.leb_le.
Qed.

(** Blank lines and header lines, wherever they stand in the file,
    change nothing: the pass ends in the same state without them. *)
Theorem inert_lines_change_nothing (lines : list string) :
  clean_lines (filter (fun l => is_inert l = false) lines) = clean_lines lines.
Proof.
  unfold clean_lines. generalize clean_init.
  induction lines as [|l ls IH]; intros st; [done|].
  rewrite filter_cons. destruct (is_inert l) eqn:Hl; simpl.
  - rewrite clean_line_inert by done. apply IH.
  - apply IH.
Qed.

(** * More on the calendar *)

Lemma StronglySorted_weaken {A : Type} (R R' : relation A) l :
  (∀ x y, R x y → R' x y) → StronglySorted R l → StronglySorted R' l.
Proof.
  intros HR Hs. induction Hs as [|x l Hs IH Hx]; constructor; [done|].
  eapply Forall_impl; [exact Hx|]. intros y. apply HR.
Qed.

Lemma StronglySorted_lookup {A : Type} (R : relation A) l : StronglySorted R l →
  ∀ i j x y, l !! i = Some x → l !! j = Some y → (i < j)%nat → R x y.
Proof.
  induction 1 as [|z l Hs IH Hz]; intros i j x y Hi Hj Hij; [done|].
  destruct j as [|j]; [lia|]. simpl in Hj.
  destruct i as [|i]; simpl in Hi.
  - injection Hi as ->. rewrite Forall_forall in Hz.
    apply Hz. by eapply list_elem_of_lookup_2.
  - apply (IH i j); [done..|lia].
Qed.

Lemma StronglySorted_of_lookup {A : Type} (R : relation A) l :
  (∀ i j x y, l !! i = Some x → l !! j = Some y → (i < j)%nat → R x y) →
  StronglySorted R l.
Proof.
  induction l as [|z l IH]; intros H; constructor.
  - apply IH. intros i j x y Hi Hj Hij. apply (H (S i) (S j)); [done..|lia].
  - apply Forall_forall. intros y Hy.
    apply list_elem_of_lookup_1 in Hy as [j Hj].
    apply (H 0%nat (S j)); [done..|lia].
Qed.

Lemma first_seen_at_row rows d a :
  first_seen_at rows d = Some a → ∃ r : row, rows !! a = Some r ∧ r.1.1 = d.
Proof.
  unfold first_seen_at.
  destruct (list_find _ rows) as [[a' r]|] eqn:Hf; [|done].
  intros [= <-]. apply list_find_Some in Hf as (Hl & Hd & _). eauto.
Qed.

(** On rows in ascending order of [(date, ticker)] the calendar comes
    out in strictly ascending order of date. *)
Lemma calendar_of_sorted_rows (rows : list row) :
  StronglySorted (fun a b : key => key_ltb b a = false) rows.*1 →
  StronglySorted (fun d1 d2 => PyStr.ltb d1 d2 = true)
    (get_trading_dates_ordered rows).
Proof.
  intros Hs. apply StronglySorted_of_lookup. intros i j di dj Hi Hj Hij.
  destruct (get_trading_dates_order rows i j di dj Hi Hj Hij)
    as (a & b & Ha & Hb & Hab).
  apply first_seen_at_row in Ha as (ra & Hra & Hda).
  apply first_seen_at_row in Hb as (rb & Hrb & Hdb).
  assert (Hk : key_ltb rb.1 ra.1 = false).
  { apply (StronglySorted_lookup _ _ Hs a b); [| |done].
    - by rewrite list_lookup_fmap, Hra.
    - by rewrite list_lookup_fmap, Hrb. }
  assert (Hne : di ≠ dj).
  { intros ->. pose proof (get_trading_dates_NoDup rows) as Hnd.
    pose proof (NoDup_lookup _ _ _ _ Hnd Hi Hj). lia. }
  unfold key_ltb in Hk. rewrite Hda, Hdb in Hk.
  rewrite bool_decide_eq_false_2 in Hk by done.
  destruct (PyStr.ltb di dj) eqn:Hlt; [done|].
  destruct Hne. by apply str_ltb_total.
Qed.

(** The calendar of the table that the cleaning pass writes is in
    strictly ascending order of date: first-seen order and date order
    agree on it. *)
Theorem clean_calendar_ascending (lines : list string) :
  StronglySorted (fun d1 d2 => PyStr.ltb d1 d2 = true)
    (get_trading_dates_ordered (canonical_table (clean_lines lines))).
Proof.
  apply calendar_of_sorted_rows.
  eapply StronglySorted_weaken; [|apply canonical_table_sorted].
  intros a b. apply key_ltb_asym.
Qed.

Lemma build_date_to_index_last dates d k :
  build_date_to_index dates !! d = Some k
  ↔ ∃ i, k = Z.of_nat i ∧ dates !! i = Some d
         ∧ ∀ j, (i < j)%nat → dates !! j ≠ Some d.
Proof.
  revert k. induction dates as [|x dates IH] using rev_ind; intros k.
  - unfold build_date_to_index. simpl. rewrite lookup_empty.
    split; [done|]. by intros (i & _ & ? & _).
  - rewrite build_date_to_index_snoc.
    destruct (decide (x = d)) as [->|Hne].
    + rewrite lookup_insert_eq. split.
      * intros [= <-]. exists (length dates). split; [done|]. split.
        -- rewrite lookup_app_r by lia. by rewrite Nat.sub_diag.
        -- intros j Hj. rewrite lookup_ge_None_2; [done|].
           rewrite length_app. simpl. lia.
      * intros (i & -> & Hi & Hlast). f_equal. f_equal.
        apply lookup_lt_Some in Hi as Hlt.
        rewrite length_app in Hlt. simpl in Hlt.
        destruct (decide (i = length dates)) as [|Hi']; [done|].
        destruct (Hlast (length dates)); [lia|].
        rewrite lookup_app_r by lia. by rewrite Nat.sub_diag.
    + rewrite lookup_insert_ne by done. rewrite IH. split.
      * intros (i & -> & Hi & Hlast). exists i. split; [done|]. split.
        -- by apply lookup_app_l_Some.
        -- intros j Hj Hjd.
           apply lookup_app_Some in Hjd as [Hjd|[_ Hjd]]; [by apply (Hlast j)|].
           apply list_lookup_singleton_Some in Hjd as [_ ?]. done.
      * intros (i & -> & Hi & Hlast). exists i. split; [done|].
        apply lookup_app_Some in Hi as [Hi|[_ Hi]].
        -- split; [done|]. intros j Hj Hjd. apply (Hlast j Hj).
           by apply lookup_app_l_Some.
        -- apply list_lookup_singleton_Some in Hi as [_ ?]. done.
Qed.

(** On any list of dates, with repetitions or not, the map sends a
    date to the last position where it stands, and has no other key. *)
Theorem date_to_index_last_position (dates : list string) d k :
  build_date_to_index dates !! d = Some k
  ↔ ∃ i, k = Z.of_nat i ∧ dates !! i = Some d
         ∧ ∀ j, (i < j)%nat → dates !! j ≠ Some d.
Proof. apply build_date_to_index_last. Qed.

(** * More on the ranking *)

Lemma index_None_iff {A : Type} (l : list A) (i : Z) :
  0 <= i → PyList.index l i = None ↔ PyList.len l <= i.
Proof.
  intros Hi. unfold PyList.index, PyList.len.
  destruct (Z.ltb_spec i 0) as [?|_]; [lia|].
  destruct (Z.ltb_spec i 0) as [?|_]; [lia|].
  rewrite lookup_ge_None. lia.
Qed.

(** The ranking raises exactly when the target date is known, its
    index is not below the window, and the index of the reference date
    is past the end of [dates]. *)
Theorem ranking_raises_iff (rows : list row) (target_date : string)
    (dates : list string) (date_to_index : gmap string Z) (window : Z) (e : exn) :
  compute_top5_momentum_for_date rows target_date dates date_to_index window
  = inl e
  ↔ e = IndexError
    ∧ ∃ idx, date_to_index !! target_date = Some idx ∧ window <= idx
             ∧ PyList.len dates <= idx - window.
Proof.
  unfold compute_top5_momentum_for_date.
  destruct (date_to_index !! target_date) as [idx|].
  2: { split; [done|]. by intros (_ & idx & ? & _). }
  destruct (Z.ltb_spec idx window) as [Hlt|Hge].
  { split; [done|]. intros (_ & idx' & [= <-] & ? & _). lia. }
  destruct (PyList.index dates (idx - window)) as [ref|] eqn:Href.
  - split; [done|]. intros (_ & idx' & [= <-] & _ & Hlen).
    apply index_None_iff in Hlen; [congruence|lia].
  - split.
    + intros [= <-]. split; [done|]. exists idx. repeat split; [done|].
      apply index_None_iff; [lia|done].
    + by intros (-> & _).
Qed.

Lemma build_date_to_index_bound dates d k :
  build_date_to_index dates !! d = Some k → 0 <= k < PyList.len dates.
Proof.
  intros (i & -> & Hi & _)%build_date_to_index_last.
  apply lookup_lt_Some in Hi. unfold PyList.len. lia.
Qed.

Lemma compute_on_built_index_returns (rows : list row) (target_date : string)
    (dates : list string) (window : Z) :
  0 <= window →
  ∃ r, compute_top5_momentum_for_date rows target_date dates
         (build_date_to_index dates) window
       = inr r.
Proof.
  intros Hw. unfold compute_top5_momentum_for_date.
  destruct (build_date_to_index dates !! target_date) as [idx|] eqn:Hidx;
    [|eauto].
  destruct (Z.ltb_spec idx window) as [?|Hge]; [eauto|].
  apply build_date_to_index_bound in Hidx.
  destruct (PyList.index dates (idx - window)) as [ref|] eqn:Href; [eauto|].
  apply index_None_iff in Href; lia.
Qed.

(** With the map built from [dates] and a window that is not negative
    the ranking never raises. *)
Theorem ranking_returns_on_built_index (rows : list row) (target_date : string)
    (dates : list string) (window : Z) :
  0 <= window →
  ∃ r, compute_top5_momentum_for_date rows target_date dates
         (build_date_to_index dates) window
       = inr r.
Proof. apply compute_on_built_index_returns. Qed.

Lemma ranking_returns_on_built_index_witness :
  ∃ r, compute_top5_momentum_for_date
         [("2023-01-02", "AAA", flt "1.0"); ("2023-01-03", "AAA", flt "2.0")]
         "2023-01-03" ["2023-01-02"; "2023-01-03"]
         (build_date_to_index ["2023-01-02"; "2023-01-03"]) 1
       = inr r.
Proof.
  apply (ranking_returns_on_built_index
           [("2023-01-02", "AAA", flt "1.0"); ("2023-01-03", "AAA", flt "2.0")]
           "2023-01-03" ["2023-01-02"; "2023-01-03"] 1).
  lia.
Defined.

(** With the calendar of the table itself, the ranking returns [None]
    exactly for the dates that no row of the table carries. *)
Theorem not_found_iff_no_row (rows : list row) (target_date : string)
    (window : Z) :
  let dates := get_trading_dates_ordered rows in
  compute_top5_momentum_for_date rows target_date dates
    (build_date_to_index dates) window
  = inr None
  ↔ target_date ∉ rows.*1.*1.
Proof.
  intros dates. rewrite <- get_trading_dates_elem. fold dates.
  unfold compute_top5_momentum_for_date.
  destruct (build_date_to_index dates !! target_date) as [idx|] eqn:Hidx.
  - apply build_date_to_index_last in Hidx as (i & _ & Hi & _).
    apply list_elem_of_lookup_2 in Hi. split; [|done].
    destruct (idx <? window); [done|].
    by destruct (PyList.index dates (idx - window)).
  - split; [|done]. intros _ Hin.
    apply list_elem_of_lookup_1 in Hin as [i Hi].
    pose proof (get_trading_dates_NoDup rows) as Hnd.
    pose proof (proj2 (build_date_to_index_lookup dates Hnd target_date
                         (Z.of_nat i)) (ex_intro _ i (conj eq_refl Hi))).
    congruence.
Qed.



(** The ranking is a top 5: when no candidate has the momentum NaN,
    every ranked entry ranks before every candidate left out. *)
Theorem ranking_is_top (rows : list row) (target_date : string)
    (dates : list string) (date_to_index : gmap string Z) (window : Z)
    l idx date_20_ago x y :
  date_to_index !! target_date = Some idx → window <= idx →
  PyList.index dates (idx - window) = Some date_20_ago →
  Forall not_nan (candidates rows target_date date_20_ago) →
  compute_top5_momentum_for_date rows target_date dates date_to_index window
  = inr (Some l) →
  x ∈ l → y ∈ candidates rows target_date date_20_ago → y ∉ l →
  ranks_before x y.
Proof.
  intros Hidx Hge Href Hnn. unfold compute_top5_momentum_for_date.
  rewrite Hidx. destruct (Z.ltb_spec idx window) as [?|_]; [lia|].
  rewrite Href. intros [= <-] Hx Hy Hny.
  pose proof (rank_sort_ranks_before _ (candidates_NoDup rows target_date
                                          date_20_ago) Hnn) as Hs.
  rewrite <- (take_drop 5) in Hs.
  apply (StronglySorted_app_1_elem_of _ _ _ _ _ Hs); [done|].
  rewrite <- (sort_Permutation rank_ltb), <- (take_drop 5) in Hy.
  by apply elem_of_app in Hy as [?|?].
Qed.

Lemma ranking_is_top_witness :
  ranks_before ("BBB", flt "2.0") ("AAA", flt "1.0").
Proof.
  set (rows := [("d0", "AAA", flt "1.0"); ("d0", "BBB", flt "1.0");
                ("d0", "CCC", flt "1.0"); ("d0", "DDD", flt "1.0");
                ("d0", "EEE", flt "1.0"); ("d0", "FFF", flt "1.0");
                ("d1", "AAA", flt "2.0"); ("d1", "BBB", flt "3.0");
                ("d1", "CCC", flt "3.0"); ("d1", "DDD", flt "3.0");
                ("d1", "EEE", flt "3.0"); ("d1", "FFF", flt "3.0")] : list row).
  apply (ranking_is_top rows "d1" ["d0"; "d1"]
           (build_date_to_index ["d0"; "d1"]) 1
           [("BBB", flt "2.0"); ("CCC", flt "2.0"); ("DDD", flt "2.0");
            ("EEE", flt "2.0"); ("FFF", flt "2.0")]
           1 "d0").
  - reflexivity.
  - lia.
  - reflexivity.
  - vm_compute. repeat constructor.
  - vm_compute. reflexivity.
  - by left.
  - vm_compute. by left.
  - vm_compute. intros H. by repeat (apply elem_of_cons in H as [H|H]; [|]);
      try discriminate H; try apply elem_of_nil in H.
Defined.

Lemma ranked_entries_spec_witness :
  ∃ p_today p_20,
    price_on [("d0", "AAA", flt "100.0"); ("d1", "AAA", flt "120.0")] "AAA" "d1"
    = Some p_today
    ∧ price_on [("d0", "AAA", flt "100.0"); ("d1", "AAA", flt "120.0")] "AAA" "d0"
      = Some p_20
    ∧ PyFloat.leb p_20 PyFloat.zero = false
    ∧ momentum (flt "120.0") (flt "100.0") = momentum p_today p_20.
Proof.
  apply (ranked_entries_spec
           [("d0", "AAA", flt "100.0"); ("d1", "AAA", flt "120.0")]
           "d1" ["d0"; "d1"] (build_date_to_index ["d0"; "d1"]) 1
           [("AAA", momentum (flt "120.0") (flt "100.0"))] 1 "d0" "AAA").
  - reflexivity.
  - lia.
  - reflexivity.
  - vm_compute. reflexivity.
  - by left.
Defined.

Lemma few_candidates_all_ranked_witness :
  ∃ l,
    compute_top5_momentum_for_date
      [("d0", "AAA", flt "100.0"); ("d1", "AAA", flt "120.0")]
      "d1" ["d0"; "d1"] (build_date_to_index ["d0"; "d1"]) 1
    = inr (Some l)
    ∧ l ≡ₚ candidates [("d0", "AAA", flt "100.0"); ("d1", "AAA", flt "120.0")]
             "d1" "d0".
Proof.
  apply (few_candidates_all_ranked
           [("d0", "AAA", flt "100.0"); ("d1", "AAA", flt "120.0")]
           "d1" ["d0"; "d1"] (build_date_to_index ["d0"; "d1"]) 1 1 "d0").
  - reflexivity.
  - lia.
  - reflexivity.
  - vm_compute. lia.
Defined.

Lemma finite_prices_no_nan_momentum_witness :
  no_nan_momentum [("d0", "AAA", flt "100.0"); ("d1", "AAA", flt "-0.0")]
    "d1" ["d0"; "d1"] (build_date_to_index ["d0"; "d1"]) 1.
Proof.
  apply (finite_prices_no_nan_momentum
           [("d0", "AAA", flt "100.0"); ("d1", "AAA", flt "-0.0")]
           "d1" ["d0"; "d1"] (build_date_to_index ["d0"; "d1"]) 1).
  vm_compute. repeat constructor.
Defined.

Lemma price_on_filter rows (P : row → Prop) `{!∀ r, Decision (P r)} ticker d :
  (∀ r : row, r.1.1 = d → P r) →
  price_on (filter P rows) ticker d = price_on rows ticker d.
Proof.
  intros HP. induction rows as [|r rows IH] using rev_ind; [done|].
  rewrite filter_app, price_on_snoc, filter_cons, filter_nil.
  destruct (decide (P r)) as [Hr|Hr].
  - by rewrite price_on_snoc, IH.
  - rewrite app_nil_r, IH. rewrite bool_decide_eq_false_2; [done|].
    intros [_ Hd]. by apply Hr, HP.
Qed.

(** Only the rows of the target date and of the reference date count:
    when no candidate has the momentum NaN, the ranking is the same on
    the table cut down to these two dates. *)
Theorem ranking_ignores_other_dates (rows : list row) (target_date : string)
    (dates : list string) (date_to_index : gmap string Z) (window : Z)
    idx date_20_ago :
  date_to_index !! target_date = Some idx → window <= idx →
  PyList.index dates (idx - window) = Some date_20_ago →
  Forall not_nan (candidates rows target_date date_20_ago) →
  compute_top5_momentum_for_date
    (filter (fun r : row => r.1.1 = target_date ∨ r.1.1 = date_20_ago) rows)
    target_date dates date_to_index window
  = compute_top5_momentum_for_date rows target_date dates date_to_index window.
Proof.
  intros Hidx Hge Href Hnn. unfold compute_top5_momentum_for_date.
  rewrite Hidx. destruct (Z.ltb_spec idx window) as [?|_]; [lia|].
  rewrite Href. do 3 f_equal. symmetry. apply rank_sort_unique; [| |done].
  - apply NoDup_Permutation; try apply pair_NoDup_fst, candidates_NoDup.
    intros [ticker m]. rewrite !candidates_spec.
    by rewrite !price_on_filter by auto.
  - apply candidates_NoDup.
Qed.

Lemma ranking_ignores_other_dates_witness :
  compute_top5_momentum_for_date
    (filter (fun r : row => r.1.1 = "d2" ∨ r.1.1 = "d1")
       [("d0", "AAA", flt "50.0"); ("d1", "AAA", flt "100.0");
        ("d2", "AAA", flt "120.0")])
    "d2" ["d0"; "d1"; "d2"] (build_date_to_index ["d0"; "d1"; "d2"]) 1
  = compute_top5_momentum_for_date
      [("d0", "AAA", flt "50.0"); ("d1", "AAA", flt "100.0");
       ("d2", "AAA", flt "120.0")]
      "d2" ["d0"; "d1"; "d2"] (build_date_to_index ["d0"; "d1"; "d2"]) 1.
Proof.
  apply (ranking_ignores_other_dates
           [("d0", "AAA", flt "50.0"); ("d1", "AAA", flt "100.0");
            ("d2", "AAA", flt "120.0")]
           "d2" ["d0"; "d1"; "d2"] (build_date_to_index ["d0"; "d1"; "d2"]) 1
           2 "d1").
  - reflexivity.
  - lia.
  - reflexivity.
  - vm_compute. repeat constructor.
Defined.



(** * Loading the clean file *)






(** * The fixtures of the tests *)

(** The fixture is a rearrangement of the given prices in ascending
    order of [(date, ticker)], and its calendar is in strictly ascending
    order of date. *)
Theorem make_rows_sorted (dates : list string)
    (tickers_with_prices : list (string * list (string * float))) :
  let rows := make_rows dates tickers_with_prices in
  rows ≡ₚ (tickers_with_prices ≫= fun tp =>
             (fun dp : string * float => (dp.1, tp.1, dp.2)) <$> tp.2)
  ∧ StronglySorted (fun a b : row => key_ltb b.1 a.1 = false) rows
  ∧ StronglySorted (fun d1 d2 => PyStr.ltb d1 d2 = true)
      (get_trading_dates_ordered rows).
Proof.
  intros rows.
  assert (Hs : StronglySorted (fun a b : row => key_ltb b.1 a.1 = false) rows).
  { apply (sort_sorted (fun a b : row => key_ltb a.1 b.1) (fun _ => True)).
    - intros x y _ _. apply key_ltb_asym.
    - intros x y z _ _ _. apply key_ltb_negtrans.
    - by apply Forall_true. }
  split; [apply sort_Permutation|]. split; [done|].
  apply calendar_of_sorted_rows.
  by apply (StronglySorted_fmap fst (fun a b : row => key_ltb b.1 a.1 = false)).
Qed.

(** * The command line *)

Section CliFacts.
Context {V : Type} (to_store : list (string * float) → V).
Context (rows : list row) (dates : list string) (date_to_index : gmap string Z).

Lemma is_quit_not_blank date_input :
  is_quit date_input = true → date_input ≠ "".
Proof. intros H ->. by vm_compute in H. Qed.

(** Entries of the cache are never removed or changed. *)
Lemma loop_cache_grows inputs : ∀ results,
  results ⊆ (query_loop to_store rows dates date_to_index results inputs).1.2.
Proof.
  induction inputs as [|line rest IH]; intros results; simpl; [done|].
  case_bool_decide; [apply IH|].
  destruct (is_quit _); [done|].
  destruct (results !! PyStr.strip line) as [cached|] eqn:Hc.
  - specialize (IH results).
    by destruct (query_loop to_store rows dates date_to_index results rest)
      as [[tr r] e].
  - destruct (compute_top5_momentum_for_date _ _ _ _ _) as [e|[[|c top5]|]];
      [done| | |].
    + specialize (IH results).
      by destruct (query_loop to_store rows dates date_to_index results rest)
        as [[tr r] e].
    + specialize (IH (<[PyStr.strip line := to_store (c :: top5)]> results)).
      destruct (query_loop to_store rows dates date_to_index _ rest)
        as [[tr r] e]. simpl in *.
      etransitivity; [|exact IH]. by apply insert_subseteq.
    + specialize (IH results).
      by destruct (query_loop to_store rows dates date_to_index results rest)
        as [[tr r] e].
Qed.

(** A new entry of the cache is the stored form of a ranking that is
    not empty. *)
Lemma loop_new_entries inputs : ∀ results d v,
  (query_loop to_store rows dates date_to_index results inputs).1.2 !! d = Some v →
  results !! d = Some v
  ∨ ∃ top5, top5 ≠ []
      ∧ compute_top5_momentum_for_date rows d dates date_to_index 20
        = inr (Some top5)
      ∧ v = to_store top5.
Proof.
  induction inputs as [|line rest IH]; intros results d v; simpl; [by left|].
  case_bool_decide; [apply IH|].
  destruct (is_quit _); [by left|].
  destruct (results !! PyStr.strip line) as [cached|] eqn:Hc.
  - specialize (IH results d v).
    by destruct (query_loop to_store rows dates date_to_index results rest)
      as [[tr r] e].
  - destruct (compute_top5_momentum_for_date _ _ _ _ _)
      as [e|[[|c top5]|]] eqn:Hcomp; [by left| | |].
    + specialize (IH results d v).
      by destruct (query_loop to_store rows dates date_to_index results rest)
        as [[tr r] e].
    + specialize (IH (<[PyStr.strip line := to_store (c :: top5)]> results) d v).
      destruct (query_loop to_store rows dates date_to_index _ rest)
        as [[tr r] e]. simpl in *.
      intros Hd. destruct (IH Hd) as [Hin|?]; [|by right].
      destruct (decide (PyStr.strip line = d)) as [<-|Hne].
      * rewrite lookup_insert_eq in Hin. injection Hin as <-.
        right. by exists (c :: top5).
      * rewrite lookup_insert_ne in Hin by done. by left.
    + specialize (IH results d v).
      by destruct (query_loop to_store rows dates date_to_index results rest)
        as [[tr r] e].
Qed.


End CliFacts.

Section CliTheorems.
Context {V : Type} (to_store : list (string * float) → V).


Lemma loop_stops_at_quit rows dates date_to_index pre q post : ∀ results,
  is_quit (PyStr.strip q) = true →
  query_loop to_store rows dates date_to_index results (pre ++ q :: post)
  = query_loop to_store rows dates date_to_index results (pre ++ [q]).
Proof.
  intros results Hq. revert results.
  induction pre as [|line pre IH]; intros results; simpl.
  - rewrite bool_decide_eq_false_2 by by apply is_quit_not_blank.
    by rewrite Hq.
  - case_bool_decide as Hb; [apply IH|].
    destruct (is_quit (PyStr.strip line)); [done|].
    destruct (results !! PyStr.strip line); [by rewrite IH|].
    destruct (compute_top5_momentum_for_date _ _ _ _ _) as [e|[[|c top5]|]];
      [done|by rewrite IH..].
Qed.


(** A session never removes or changes an entry of the cache, and an
    entry it adds is the stored form of a ranking that is not empty:
    unknown dates and dates without enough history are not cached. *)
Theorem session_cache_only_grows (rows : list row) (results : gmap string V)
    (inputs : list string) :
  let final := (main_queries to_store rows results inputs).1.2 in
  let dates := get_trading_dates_ordered rows in
  results ⊆ final
  ∧ ∀ d v, final !! d = Some v →
      results !! d = Some v
      ∨ ∃ top5, top5 ≠ []
          ∧ compute_top5_momentum_for_date rows d dates
              (build_date_to_index dates) 20
            = inr (Some top5)
          ∧ v = to_store top5.
Proof.
  unfold main_queries. destruct rows as [|r rows']; simpl.
  { split; [done|]. intros d v ?. by left. }
  pose proof (loop_cache_grows to_store (r :: rows')
                (get_trading_dates_ordered (r :: rows'))
                (build_date_to_index (get_trading_dates_ordered (r :: rows')))
                inputs results) as Hg.
  pose proof (loop_new_entries to_store (r :: rows')
                (get_trading_dates_ordered (r :: rows'))
                (build_date_to_index (get_trading_dates_ordered (r :: rows')))
                inputs results) as Hn.
  by destruct (query_loop _ _ _ _ _ _) as [[tr f] e].
Qed.


(** The lines typed after a quit word are not read. *)
Theorem session_stops_at_quit (rows : list row) (results : gmap string V)
    pre q post :
  is_quit (PyStr.strip q) = true →
  main_queries to_store rows results (pre ++ q :: post)
  = main_queries to_store rows results (pre ++ [q]).
Proof.
  intros Hq. unfold main_queries. destruct rows as [|r rows']; [done|].
  by rewrite loop_stops_at_quit.
Qed.


End CliTheorems.


Lemma session_stops_at_quit_witness :
  main_queries id sample_rows ∅ (["20"] ++ " Quit " :: ["19"; "18"])
  = main_queries id sample_rows ∅ (["20"] ++ [" Quit "]).
Proof.
  apply (session_stops_at_quit id sample_rows ∅ ["20"] " Quit " ["19"; "18"]).
  vm_compute. reflexivity.
Defined.
